(** * UniConvert AI: the batch conversion queue and the conversion service

    A shallow embedding of [App.tsx] (the state operations [processFiles],
    [removeFile], the row click, the field editors and [handleConvert]),
    of [types.ts] and of [services/geminiService.ts] ([getMimeType],
    [isTextFile], [fileToGenerativePart], [convertContent]).

    Representation choices:
    - a JavaScript string is a [string] holding its UTF-8 bytes: equality,
      prefix and substring tests and splitting at an ASCII character agree
      with those on UTF-16 code units, and a length is only ever compared
      with 0; [toLowerCase] acts on the ASCII letters (every literal the program
      compares an extension with is ASCII and holds no letter k, the only
      ASCII letter some non-ASCII character lowers to);
    - [File.size] is an [N];
    - React's [setState (prev => ...)] is an updater applied to the current
      state of a run record that also logs every state and every call of
      [convertContent];
    - the browser and the remote model are an environment record [Env]
      ([FileReader] outcomes and [ai.models.generateContent]); the
      environment may differ from one conversion call to the next;
    - [Math.random] identifiers are supplied by the caller of [processFiles];
    - a handler runs without another handler's update coming in between its
      own; logging and DOM bookkeeping ([console.error], the reset of the
      file input) are left out. *)

From Stdlib Require Import String Ascii List NArith Bool Lia Arith DecimalString.
Import ListNotations.
Local Open Scope string_scope.
Local Open Scope list_scope.

(** ** JavaScript string primitives *)

Module Js.

Definition lowerAscii (c : ascii) : ascii :=
  let n := nat_of_ascii c in
  if (65 <=? n)%nat && (n <=? 90)%nat then ascii_of_nat (n + 32) else c.

(** [s.toLowerCase()] *)
Fixpoint toLowerCase (s : string) : string :=
  match s with
  | EmptyString => EmptyString
  | String c r => String (lowerAscii c) (toLowerCase r)
  end.

(** [s.startsWith(p)] *)
Definition startsWith (s p : string) : bool := String.prefix p s.

(** [s.includes(p)] : [p] occurs in [s] as a substring *)
Fixpoint includes (s p : string) : bool :=
  String.prefix p s ||
  match s with
  | EmptyString => false
  | String _ r => includes r p
  end.

(** [s.split(sep)] for a one-character separator: never the empty array *)
Fixpoint split (sep : ascii) (s : string) : list string :=
  match s with
  | EmptyString => [EmptyString]
  | String c r =>
      if Ascii.eqb c sep then EmptyString :: split sep r
      else match split sep r with
           | [] => [String c EmptyString]
           | w :: ws => String c w :: ws
           end
  end.

(** [arr.pop()] read as a value: the last element, [undefined] on [[]] *)
Definition pop (l : list string) : option string :=
  match rev l with
  | [] => None
  | x :: _ => Some x
  end.

(** [arr.join(sep)] *)
Definition join (sep : string) (l : list string) : string := String.concat sep l.

(** [arr.includes(x)] on an array of strings *)
Definition arrayIncludes (l : list string) (x : string) : bool :=
  existsb (String.eqb x) l.

(** Truthiness of a string-or-null value: [null], [undefined] and [''] are falsy. *)
Definition truthy (o : option string) : bool :=
  match o with
  | Some s => negb (String.eqb s "")
  | None => false
  end.

(** [a || b] on string-or-null values *)
Definition or (a b : option string) : option string :=
  if truthy a then a else b.

(** [a || lit] where [lit] is a string literal *)
Definition orStr (a : option string) (lit : string) : string :=
  match a with
  | Some s => if String.eqb s "" then lit else s
  | None => lit
  end.

(** One white-space or line-terminator character at the head of [s], as
    [String.prototype.trim] understands it, removed: TAB, LF, VT, FF, CR,
    SP, and in UTF-8 U+00A0, U+1680, U+2000..U+200A, U+2028, U+2029,
    U+202F, U+205F, U+3000, U+FEFF. *)
Definition dropSpace (s : string) : option string :=
  match s with
  | EmptyString => None
  | String c r =>
      let n := nat_of_ascii c in
      if ((9 <=? n) && (n <=? 13) || (n =? 32))%nat then Some r
      else match r with
      | EmptyString => None
      | String c2 r2 =>
          let n2 := nat_of_ascii c2 in
          if ((n =? 194) && (n2 =? 160))%nat then Some r2
          else match r2 with
          | EmptyString => None
          | String c3 r3 =>
              let n3 := nat_of_ascii c3 in
              if ((n =? 225) && (n2 =? 154) && (n3 =? 128)
                  || (n =? 226) && (n2 =? 128)
                     && ((128 <=? n3) && (n3 <=? 138) || (n3 =? 168) || (n3 =? 169) || (n3 =? 175))
                  || (n =? 226) && (n2 =? 129) && (n3 =? 159)
                  || (n =? 227) && (n2 =? 128) && (n3 =? 128)
                  || (n =? 239) && (n2 =? 187) && (n3 =? 191))%nat
              then Some r3 else None
          end
      end
  end.

Fixpoint trimStartFuel (fuel : nat) (s : string) : string :=
  match fuel with
  | O => s
  | S k => match dropSpace s with
           | Some r => trimStartFuel k r
           | None => s
           end
  end.

(** [s.trimStart()] *)
Definition trimStart (s : string) : string := trimStartFuel (String.length s) s.

Fixpoint revString (s : string) (acc : string) : string :=
  match s with
  | EmptyString => acc
  | String c r => revString r (String c acc)
  end.

(** The same test from the end of the string: the bytes of a multi-byte
    character are met last byte first, and the
    character must be the whole of what is tested. *)
Definition dropSpaceRev (s : string) : option string :=
  match s with
  | EmptyString => None
  | String c r =>
      let n := nat_of_ascii c in
      if ((9 <=? n) && (n <=? 13) || (n =? 32))%nat then Some r
      else match r with
      | EmptyString => None
      | String c2 r2 =>
          match dropSpace (String c2 (String c EmptyString)) with
          | Some EmptyString => Some r2
          | _ =>
              match r2 with
              | EmptyString => None
              | String c3 r3 =>
                  match dropSpace (String c3 (String c2 (String c EmptyString))) with
                  | Some EmptyString => Some r3
                  | _ => None
                  end
              end
          end
      end
  end.

Fixpoint trimEndFuel (fuel : nat) (s : string) : string :=
  match fuel with
  | O => s
  | S k => match dropSpaceRev s with
           | Some r => trimEndFuel k r
           | None => s
           end
  end.

(** [s.trim()] *)
Definition trim (s : string) : string :=
  let t := trimStart s in
  revString (trimEndFuel (String.length t) (revString t EmptyString)) EmptyString.

(** Decimal digits of a natural number. *)
Definition digits (n : N) : string :=
  NilZero.string_of_uint (N.to_uint n).

(** [(bytes / 1024 / 1024).toFixed(1)]: both divisions are exact in binary
    floating point (powers of two, [bytes < 2^53]), and [toFixed] picks the
    integer [n] with [n / 10] nearest to the exact quotient, the larger one
    on a tie. *)
Definition mibToFixed1 (bytes : N) : string :=
  let n := ((bytes * 20 + 1048576) / 2097152)%N in
  digits (n / 10) ++ "." ++ digits (n mod 10).

End Js.

(** ** types.ts *)

Inductive TargetFormat : Type :=
  | JSON | XML | CSV | MARKDOWN | HTML | LATEX | SQL | YAML | DOCX | PLAIN_TEXT | MERMAID.

(** The string value of each enum member, as it is spliced into prompts. *)
Definition TargetFormat_value (t : TargetFormat) : string :=
  match t with
  | JSON => "JSON"
  | XML => "XML"
  | CSV => "CSV"
  | MARKDOWN => "Markdown"
  | HTML => "HTML"
  | LATEX => "LaTeX"
  | SQL => "SQL"
  | YAML => "YAML"
  | DOCX => "DOCX (Word文档)"
  | PLAIN_TEXT => "纯文本"
  | MERMAID => "Mermaid 图表"
  end.

Definition TargetFormat_eqb (a b : TargetFormat) : bool :=
  String.eqb (TargetFormat_value a) (TargetFormat_value b).

(** ['idle' | 'processing' | 'success' | 'error'] *)
Inductive ConversionStatus : Type := Idle | Processing | Success | Error.

Definition ConversionStatus_eqb (a b : ConversionStatus) : bool :=
  match a, b with
  | Idle, Idle | Processing, Processing | Success, Success | Error, Error => true
  | _, _ => false
  end.

(** ['text' | 'file'] *)
Inductive InputMode : Type := ModeText | ModeFile.

(** The part of the DOM [File] the program reads. *)
Module File.
Record t : Type := mk { name : string; size : N; type : string }.
End File.

Module BatchFileItem.
Record t : Type := mk {
  id : string;
  file : File.t;
  status : ConversionStatus;
  result : option string;
  error : option string
}.

Definition set_status (v : ConversionStatus) (f : t) : t :=
  mk (id f) (file f) v (result f) (error f).
Definition set_result (v : option string) (f : t) : t :=
  mk (id f) (file f) (status f) v (error f).
Definition set_error (v : option string) (f : t) : t :=
  mk (id f) (file f) (status f) (result f) v.
End BatchFileItem.

Module ConversionState.
Record t : Type := mk {
  inputMode : InputMode;
  inputText : string;
  batchFiles : list BatchFileItem.t;
  activeFileId : option string;
  targetFormat : TargetFormat;
  status : ConversionStatus;
  textResult : string;
  error : option string;
  additionalInstructions : string;
  customFilename : string
}.

Definition set_inputMode (v : InputMode) (s : t) : t :=
  mk v (inputText s) (batchFiles s) (activeFileId s) (targetFormat s) (status s)
     (textResult s) (error s) (additionalInstructions s) (customFilename s).
Definition set_inputText (v : string) (s : t) : t :=
  mk (inputMode s) v (batchFiles s) (activeFileId s) (targetFormat s) (status s)
     (textResult s) (error s) (additionalInstructions s) (customFilename s).
Definition set_batchFiles (v : list BatchFileItem.t) (s : t) : t :=
  mk (inputMode s) (inputText s) v (activeFileId s) (targetFormat s) (status s)
     (textResult s) (error s) (additionalInstructions s) (customFilename s).
Definition set_activeFileId (v : option string) (s : t) : t :=
  mk (inputMode s) (inputText s) (batchFiles s) v (targetFormat s) (status s)
     (textResult s) (error s) (additionalInstructions s) (customFilename s).
Definition set_targetFormat (v : TargetFormat) (s : t) : t :=
  mk (inputMode s) (inputText s) (batchFiles s) (activeFileId s) v (status s)
     (textResult s) (error s) (additionalInstructions s) (customFilename s).
Definition set_status (v : ConversionStatus) (s : t) : t :=
  mk (inputMode s) (inputText s) (batchFiles s) (activeFileId s) (targetFormat s) v
     (textResult s) (error s) (additionalInstructions s) (customFilename s).
Definition set_textResult (v : string) (s : t) : t :=
  mk (inputMode s) (inputText s) (batchFiles s) (activeFileId s) (targetFormat s) (status s)
     v (error s) (additionalInstructions s) (customFilename s).
Definition set_error (v : option string) (s : t) : t :=
  mk (inputMode s) (inputText s) (batchFiles s) (activeFileId s) (targetFormat s) (status s)
     (textResult s) v (additionalInstructions s) (customFilename s).
Definition set_additionalInstructions (v : string) (s : t) : t :=
  mk (inputMode s) (inputText s) (batchFiles s) (activeFileId s) (targetFormat s) (status s)
     (textResult s) (error s) v (customFilename s).
Definition set_customFilename (v : string) (s : t) : t :=
  mk (inputMode s) (inputText s) (batchFiles s) (activeFileId s) (targetFormat s) (status s)
     (textResult s) (error s) (additionalInstructions s) v.
End ConversionState.

Definition SUPPORTED_FILE_TYPES : list string :=
  [ "image/png";
    "image/jpeg";
    "image/webp";
    "image/heic";
    "application/pdf";
    "text/plain";
    "text/csv";
    "text/html";
    "application/json";
    "text/markdown";
    "text/x-yaml";
    "application/vnd.openxmlformats-officedocument.wordprocessingml.document" ].

(** ** services/geminiService.ts *)

(** A thrown JavaScript value, as far as the program inspects it:
    [error.message] and [error.toString()]. *)
Module JsError.
Record t : Type := mk { message : option string; toString : string }.

(** [new Error(msg)] *)
Definition Error (msg : string) : t := mk (Some msg) ("Error: " ++ msg).
End JsError.

(** The result of an awaited promise: rejected with a thrown value, or
    resolved. *)
Definition Promise (A : Type) : Type := (JsError.t + A)%type.

Definition resolve {A : Type} (a : A) : Promise A := inr a.
Definition reject {A : Type} (e : JsError.t) : Promise A := inl e.

Definition await {A B : Type} (p : Promise A) (k : A -> Promise B) : Promise B :=
  match p with
  | inl e => inl e
  | inr a => k a
  end.

Notation "x <- p ;; k" := (await p (fun x => k))
  (at level 61, p at next level, right associativity).

Definition nl : string := String (ascii_of_nat 10) EmptyString.

Module InlineData.
Record t : Type := mk { data : option string; mimeType : string }.
End InlineData.

(** One element of the [parts] array: [{ text }] or [{ inlineData }]. *)
Inductive Part : Type :=
  | TextPart (text : string)
  | InlineDataPart (inlineData : InlineData.t).

(** ['inlineData' in part] *)
Definition hasInlineData (p : Part) : bool :=
  match p with
  | InlineDataPart _ => true
  | TextPart _ => false
  end.

(** The [config] object; its constant [temperature: 0.2] is left out. *)
Module Config.
Record t : Type := mk { systemInstruction : string; responseMimeType : option string }.
End Config.

Module Request.
Record t : Type := mk { model : string; parts : list Part; config : Config.t }.
End Request.

Module Response.
Record t : Type := mk { text : option string }.
End Response.

(** What lies outside the program during one call of [convertContent]:
    the two [FileReader] reads ([inl]: the [error] event; for
    [readAsDataURL], [inr r] is [reader.result] at [loadend]) and the remote
    model call. *)
Module Env.
Record t : Type := mk {
  readAsText : File.t -> Promise string;
  readAsDataURL : File.t -> Promise (option string);
  generateContent : Request.t -> Promise Response.t
}.
End Env.

(** [file.name.split('.').pop()?.toLowerCase()] *)
Definition extensionOf (file : File.t) : option string :=
  option_map Js.toLowerCase (Js.pop (Js.split "." (File.name file))).

Definition extIs (ext : option string) (lit : string) : bool :=
  match ext with
  | Some e => String.eqb e lit
  | None => false
  end.

Definition getMimeType (file : File.t) : string :=
  if negb (String.eqb (File.type file) "")
     && negb (String.eqb (File.type file) "application/octet-stream")
     && negb (String.eqb (File.type file) "")
  then File.type file
  else
    let ext := extensionOf file in
    if extIs ext "pdf" then "application/pdf"
    else if extIs ext "csv" then "text/csv"
    else if extIs ext "json" then "application/json"
    else if extIs ext "xml" then "text/xml"
    else if extIs ext "html" then "text/html"
    else if extIs ext "md" then "text/markdown"
    else if extIs ext "txt" then "text/plain"
    else if extIs ext "doc" || extIs ext "docx"
      then "application/vnd.openxmlformats-officedocument.wordprocessingml.document"
    else if extIs ext "png" then "image/png"
    else if extIs ext "jpg" || extIs ext "jpeg" then "image/jpeg"
    else if extIs ext "webp" then "image/webp"
    else if extIs ext "heic" then "image/heic"
    else "text/plain".

Definition textMimes : list string :=
  [ "text/"; "application/json"; "application/xml"; "application/javascript";
    "application/x-yaml"; "application/sql"; "application/csv" ].

Definition textExts : list string :=
  [ "txt"; "md"; "csv"; "json"; "xml"; "html"; "css"; "js"; "yaml"; "yml";
    "sql"; "ts"; "tsx"; "py" ].

Definition isTextFile (file : File.t) : bool :=
  let mimeType := getMimeType file in
  if existsb (fun t => Js.startsWith mimeType t) textMimes then true
  else
    match extensionOf file with
    | Some ext => negb (String.eqb ext "") && Js.arrayIncludes textExts ext
    | None => false
    end.

Definition readTextFile (env : Env.t) (file : File.t) : Promise string :=
  Env.readAsText env file.

Definition fileToGenerativePart (env : Env.t) (file : File.t) : Promise InlineData.t :=
  reader_result <- Env.readAsDataURL env file ;;
  match reader_result with
  | Some result =>
      if String.eqb result "" then reject (JsError.Error "无法读取文件")
      else
        let base64String := nth_error (Js.split "," result) 1 in
        let mimeType := getMimeType file in
        resolve (InlineData.mk base64String mimeType)
  | None => reject (JsError.Error "无法读取文件")
  end.

(** [string | File] *)
Inductive ConvertInput : Type :=
  | InputText (s : string)
  | InputFile (f : File.t).

Definition modelId : string := "gemini-2.5-flash".

Definition baseSystemInstruction (targetFormat : TargetFormat) : string :=
  "You are a strict document conversion engine. 
    Your task is to transform the input data into the requested format (e.g., " ++ TargetFormat_value targetFormat ++ "). 
    Do NOT include conversational filler, explanations, or markdown code fences (like ```json) UNLESS the target format is Markdown. 
    Just output the raw converted content. 
    If the input is an image or PDF, extract all relevant text and data structures and format them accordingly.
    
    IMPORTANT: If the input document contains tables, you MUST preserve the table structure in the target format (e.g., as Markdown tables, HTML <table> tags, CSV rows, or structured JSON arrays). Do not flatten tables into plain text unless requested.".

Definition docxSystemInstruction : string :=
  "

For the target format DOCX (Word), please generate clean, semantic HTML5 code with inline styles suitable for a document. 
      Use <h1>, <h2> for headings, <table> for data, and <p> for text. Do not include <html> or <body> tags, just the content. 
      This HTML will be saved as a .doc file which Word can open.".

Definition pdfSystemInstruction : string :=
  "

Since the input is a PDF, meticulously extract the text, tables, and document structure. Preserve the flow, hierarchy, and formatting (bold, italics) of the original document in the generated HTML to ensure the converted Word document closely matches the PDF.".

(** [instructions && instructions.trim().length > 0]: the instructions
    when the test holds. *)
Definition givenInstructions (instructions : option string) : option string :=
  match instructions with
  | Some i =>
      if negb (String.eqb i "") && (0 <? String.length (Js.trim i))%nat then Some i
      else None
  | None => None
  end.

(** [parts.length === 1 && 'inlineData' in parts[0]] *)
Definition isSingleBinaryPart (parts : list Part) : bool :=
  match parts with
  | [p] => hasInlineData p
  | _ => false
  end.

(** The first branch of the [try] block: the parts built from the input,
    the prompt text and the [isPdfInput] flag. *)
Definition inputParts (env : Env.t) (input : ConvertInput) (targetFormat : TargetFormat)
  : Promise (list Part * string * bool) :=
  match input with
  | InputFile file =>
      if isTextFile file then
        textContent <- readTextFile env file ;;
        let promptText : string :=
          ("Convert the following file content to " ++ TargetFormat_value targetFormat
           ++ ". Filename: " ++ File.name file ++ nl ++ nl ++ "Content:" ++ nl
           ++ textContent)%string in
        resolve ([TextPart promptText], promptText, false)
      else
        filePart <- fileToGenerativePart env file ;;
        let promptText : string :=
          ("Analyze the content of this file and convert it to "
           ++ TargetFormat_value targetFormat ++ ".")%string in
        resolve ([InlineDataPart filePart], promptText,
                 String.eqb (InlineData.mimeType filePart) "application/pdf")
  | InputText text =>
      let promptText : string :=
        ("Convert the following text content to " ++ TargetFormat_value targetFormat
         ++ ":" ++ nl ++ nl ++ text)%string in
      resolve ([TextPart promptText], promptText, false)
  end.

(** The instruction step that follows. *)
Definition withInstructions (parts : list Part) (promptText : string)
  (instructions : option string) : list Part :=
  match givenInstructions instructions with
  | Some i =>
      if isSingleBinaryPart parts then
        parts ++ [TextPart (promptText ++ nl ++ nl ++ "Additional Instructions & Rules:" ++ nl
                            ++ i)%string]
      else
        parts ++ [TextPart (nl ++ nl ++ "Additional Instructions & Rules:" ++ nl ++ i)%string]
  | None =>
      if isSingleBinaryPart parts then parts ++ [TextPart promptText]
      else parts
  end.

Definition systemInstructionFor (targetFormat : TargetFormat) (isPdfInput : bool) : string :=
  let systemInstruction : string := baseSystemInstruction targetFormat in
  if TargetFormat_eqb targetFormat DOCX then
    let systemInstruction : string := (systemInstruction ++ docxSystemInstruction)%string in
    if isPdfInput then (systemInstruction ++ pdfSystemInstruction)%string else systemInstruction
  else systemInstruction.

Definition configFor (targetFormat : TargetFormat) (isPdfInput : bool) : Config.t :=
  Config.mk (systemInstructionFor targetFormat isPdfInput)
            (if TargetFormat_eqb targetFormat JSON then Some "application/json" else None).

(** The argument of [ai.models.generateContent], when the reads succeed. *)
Definition buildRequest (env : Env.t) (input : ConvertInput) (targetFormat : TargetFormat)
  (instructions : option string) : Promise Request.t :=
  built <- inputParts env input targetFormat ;;
  let '(parts, promptText, isPdfInput) := built in
  let parts := withInstructions parts promptText instructions in
  resolve (Request.mk modelId parts (configFor targetFormat isPdfInput)).

Definition noContentPlaceholder : string := "未生成任何内容。".

(** The body of the [try] block. *)
Definition convertContentTry (env : Env.t) (input : ConvertInput) (targetFormat : TargetFormat)
  (instructions : option string) : Promise string :=
  request <- buildRequest env input targetFormat instructions ;;
  response <- Env.generateContent env request ;;
  resolve (Js.orStr (Response.text response) noContentPlaceholder).

(** [error.message?.includes(lit)] *)
Definition messageIncludes (error : JsError.t) (lit : string) : bool :=
  match JsError.message error with
  | Some m => Js.includes m lit
  | None => false
  end.

(** The [catch] block: the message of the [Error] that is thrown again. *)
Definition convertContentCatch (error : JsError.t) : string :=
  if messageIncludes error "Rpc failed" || Js.includes (JsError.toString error) "413" then
    "文件过大导致网络传输失败。虽然模型很强，但浏览器端传输受限，请尝试压缩 PDF 或使用小于 5MB 的文件。"
  else if messageIncludes error "API_KEY" then
    "API Key 配置无效。"
  else Js.orStr (JsError.message error) "转换内容失败，请重试。".

(** [convertContent]: [inr text] when the promise resolves, [inl msg] when
    it rejects with [new Error(msg)]. *)
Definition convertContent (env : Env.t) (input : ConvertInput) (targetFormat : TargetFormat)
  (instructions : option string) : string + string :=
  match convertContentTry env input targetFormat instructions with
  | inr text => inr text
  | inl error => inl (convertContentCatch error)
  end.

(** ** App.tsx: the state and its operations *)

Definition initialState : ConversionState.t :=
  ConversionState.mk ModeText "" [] None JSON Idle "" None "" "".

Definition ACCEPT_STRING : string :=
  Js.join ","
    (SUPPORTED_FILE_TYPES ++
     [ ".pdf"; ".docx"; ".doc"; ".csv"; ".txt"; ".md"; ".json"; ".xml"; ".html";
       ".yaml"; ".yml" ]).

Definition handleInputModeChange (mode : InputMode) (prev : ConversionState.t)
  : ConversionState.t :=
  ConversionState.set_error None (ConversionState.set_inputMode mode prev).

Definition MAX_SIZE : N := 5 * 1024 * 1024.

(** ['.' + file.name.split('.').pop()?.toLowerCase()] *)
Definition fileExtOf (file : File.t) : string :=
  match extensionOf file with
  | Some e => "." ++ e
  | None => ".undefined"
  end.

Definition isValidMime (file : File.t) : bool :=
  existsb (fun type => String.eqb (File.type file) type || Js.startsWith (File.type file) type)
          SUPPORTED_FILE_TYPES.

Definition isValidExt (file : File.t) : bool :=
  Js.includes ACCEPT_STRING (fileExtOf file).

Definition tooLargeMessage (file : File.t) : string :=
  "文件 " ++ File.name file ++ " 过大 (" ++ Js.mibToFixed1 (File.size file)
  ++ "MB)。请上传 5MB 以内的文件。".

Definition unsupportedMessage (file : File.t) : string :=
  "不支持的文件类型: " ++ File.name file.

(** The body of the [forEach] callback of [processFiles], acting on the two
    variables it closes over, [newFiles] and [errorMsg]. [generateId ()] is
    [ids k] for the [k]-th identifier drawn in this call. *)
Definition processFile (ids : nat -> string)
  (acc : list BatchFileItem.t * option string) (file : File.t)
  : list BatchFileItem.t * option string :=
  let '(newFiles, errorMsg) := acc in
  if (MAX_SIZE <? File.size file)%N then (newFiles, Some (tooLargeMessage file))
  else if negb (isValidMime file) && negb (isValidExt file)
          && negb (String.eqb (File.type file) "")
  then (newFiles, Some (unsupportedMessage file))
  else (newFiles ++ [BatchFileItem.mk (ids (length newFiles)) file Idle None None], errorMsg).

Definition processFiles (ids : nat -> string) (files : list File.t)
  (prev : ConversionState.t) : ConversionState.t :=
  let '(newFiles, errorMsg) := fold_left (processFile ids) files ([], None) in
  let updatedFiles := ConversionState.batchFiles prev ++ newFiles in
  ConversionState.set_error (Js.or errorMsg (ConversionState.error prev))
    (ConversionState.set_activeFileId
       (Js.or (ConversionState.activeFileId prev)
              (match newFiles with
               | f :: _ => Some (BatchFileItem.id f)
               | [] => ConversionState.activeFileId prev
               end))
       (ConversionState.set_batchFiles updatedFiles prev)).

(** [handleFileChange] and [handleDrop] *)
Definition handleFiles (ids : nat -> string) (files : list File.t)
  (prev : ConversionState.t) : ConversionState.t :=
  match files with
  | [] => prev
  | _ :: _ => processFiles ids files prev
  end.

Definition removeFile (id : string) (prev : ConversionState.t) : ConversionState.t :=
  let newFiles :=
    filter (fun f => negb (String.eqb (BatchFileItem.id f) id)) (ConversionState.batchFiles prev) in
  let newActiveId :=
    match ConversionState.activeFileId prev with
    | Some a =>
        if String.eqb id a then
          match newFiles with
          | f :: _ => Some (BatchFileItem.id f)
          | [] => None
          end
        else Some a
    | None => None
    end in
  ConversionState.set_activeFileId newActiveId (ConversionState.set_batchFiles newFiles prev).

(** The click handler of the [i]-th row of the rendered file list:
    [setState(prev => ({ ...prev, activeFileId: file.id }))] for the [file]
    the row was rendered from. There is no handler where there is no row. *)
Definition selectActive (i : nat) (prev : ConversionState.t) : ConversionState.t :=
  match nth_error (ConversionState.batchFiles prev) i with
  | Some file => ConversionState.set_activeFileId (Some (BatchFileItem.id file)) prev
  | None => prev
  end.

(** The target format buttons. *)
Definition setTarget (format : TargetFormat) (prev : ConversionState.t) : ConversionState.t :=
  ConversionState.set_targetFormat format prev.

(** The instructions input. *)
Definition setInstructions (value : string) (prev : ConversionState.t) : ConversionState.t :=
  ConversionState.set_additionalInstructions value prev.

(** The input textarea. *)
Definition setInputText (value : string) (prev : ConversionState.t) : ConversionState.t :=
  ConversionState.set_error None (ConversionState.set_inputText value prev).

(** The output file name input. *)
Definition setCustomFilename (value : string) (prev : ConversionState.t) : ConversionState.t :=
  ConversionState.set_customFilename value prev.

(** ** App.tsx: [handleConvert] *)

(** One call of [convertContent]: its three arguments. *)
Definition Call : Type := (ConvertInput * TargetFormat * string)%type.

(** A run of an event handler: the current state (what the next [setState]
    updater receives as [prev]), every state the run has set so far, newest
    first, and the calls of [convertContent] made so far, oldest first. *)
Module Run.
Record t : Type := mk {
  current : ConversionState.t;
  history : list ConversionState.t;
  calls : list Call
}.

Definition start (state : ConversionState.t) : t := mk state [] [].
End Run.

(** [setState(updater)] *)
Definition setState (updater : ConversionState.t -> ConversionState.t) (r : Run.t) : Run.t :=
  Run.mk (updater (Run.current r)) (updater (Run.current r) :: Run.history r) (Run.calls r).

(** [f.id === fileItem.id ? change f : f] mapped over [prev.batchFiles] *)
Definition updateItem (fileItem : BatchFileItem.t) (change : BatchFileItem.t -> BatchFileItem.t)
  (prev : ConversionState.t) : list BatchFileItem.t :=
  map (fun f => if String.eqb (BatchFileItem.id f) (BatchFileItem.id fileItem) then change f else f)
      (ConversionState.batchFiles prev).

Definition markProcessing (f : BatchFileItem.t) : BatchFileItem.t :=
  BatchFileItem.set_error None (BatchFileItem.set_status Processing f).

Definition markSuccess (result : string) (f : BatchFileItem.t) : BatchFileItem.t :=
  BatchFileItem.set_result (Some result) (BatchFileItem.set_status Success f).

Definition markError (message : string) (f : BatchFileItem.t) : BatchFileItem.t :=
  BatchFileItem.set_error (Some message) (BatchFileItem.set_status Error f).

Section HandleConvert.

(** The environment met by the [k]-th call of [convertContent] of a run. *)
Variable world : nat -> Env.t.

(** [await convertContent(input, targetFormat, instructions)] *)
Definition awaitConvertContent (input : ConvertInput) (targetFormat : TargetFormat)
  (instructions : string) (r : Run.t) : (string + string) * Run.t :=
  (convertContent (world (length (Run.calls r))) input targetFormat (Some instructions),
   Run.mk (Run.current r) (Run.history r) (Run.calls r ++ [(input, targetFormat, instructions)])).

(** The body of the [for] loop of the batch branch; [state] is the state
    the handler closed over. *)
Definition convertItem (state : ConversionState.t) (r : Run.t) (fileItem : BatchFileItem.t)
  : Run.t :=
  if ConversionStatus_eqb (BatchFileItem.status fileItem) Success then r
  else
    let r :=
      setState (fun prev =>
        ConversionState.set_batchFiles (updateItem fileItem markProcessing prev)
          (ConversionState.set_activeFileId (Some (BatchFileItem.id fileItem)) prev)) r in
    let '(outcome, r) :=
      awaitConvertContent (InputFile (BatchFileItem.file fileItem))
        (ConversionState.targetFormat state)
        (ConversionState.additionalInstructions state) r in
    match outcome with
    | inr result =>
        setState (fun prev =>
          ConversionState.set_batchFiles (updateItem fileItem (markSuccess result) prev) prev) r
    | inl message =>
        setState (fun prev =>
          ConversionState.set_batchFiles (updateItem fileItem (markError message) prev) prev) r
    end.

(** [handleConvert], run from the rendered [state] with no other update
    in flight: the updaters start from [state] itself. *)
Definition handleConvert (state : ConversionState.t) : Run.t :=
  let r := Run.start state in
  match ConversionState.inputMode state with
  | ModeText =>
      if String.eqb (Js.trim (ConversionState.inputText state)) "" then
        setState (ConversionState.set_error (Some "请输入需要转换的文本。")) r
      else
        let r :=
          setState (fun prev =>
            ConversionState.set_error None (ConversionState.set_status Processing prev)) r in
        let '(outcome, r) :=
          awaitConvertContent (InputText (ConversionState.inputText state))
            (ConversionState.targetFormat state)
            (ConversionState.additionalInstructions state) r in
        match outcome with
        | inr result =>
            setState (fun prev =>
              ConversionState.set_textResult result
                (ConversionState.set_status Success prev)) r
        | inl message =>
            setState (fun prev =>
              ConversionState.set_error (Some (Js.orStr (Some message) "发生意外错误。"))
                (ConversionState.set_status Error prev)) r
        end
  | ModeFile =>
      match ConversionState.batchFiles state with
      | [] => setState (ConversionState.set_error (Some "请至少选择一个文件。")) r
      | _ :: _ =>
          let r :=
            setState (fun prev =>
              ConversionState.set_error None (ConversionState.set_status Processing prev)) r in
          let filesToProcess := ConversionState.batchFiles state in
          let r := fold_left (convertItem state) filesToProcess r in
          setState (ConversionState.set_status Idle) r
      end
  end.

End HandleConvert.

(** ** Specification-side vocabulary *)

(** The identities of the queue, in queue order. *)
Definition queueIds (s : ConversionState.t) : list string :=
  map BatchFileItem.id (ConversionState.batchFiles s).

(** [activeFileId] is unset or names an item of the queue. *)
Definition activeValid (s : ConversionState.t) : Prop :=
  match ConversionState.activeFileId s with
  | Some a => In a (queueIds s)
  | None => True
  end.

(** [result] is set exactly in [Success], [error] exactly in [Error]. *)
Definition itemConsistent (f : BatchFileItem.t) : Prop :=
  match BatchFileItem.status f with
  | Success => BatchFileItem.result f <> None /\ BatchFileItem.error f = None
  | Error => BatchFileItem.result f = None /\ BatchFileItem.error f <> None
  | Idle | Processing => BatchFileItem.result f = None /\ BatchFileItem.error f = None
  end.

(** The two admission rules as the specification words them: within the
    size ceiling, and of a supported declared type or extension, the
    extension alone deciding for an empty declared type. *)
Definition withinCeiling (file : File.t) : bool := (File.size file <=? MAX_SIZE)%N.

Definition typeRuleAsSpecified (file : File.t) : bool :=
  if String.eqb (File.type file) "" then isValidExt file
  else isValidMime file || isValidExt file.

(** The type rule of the code: an empty declared type passes. *)
Definition typeRule (file : File.t) : bool :=
  isValidMime file || isValidExt file || String.eqb (File.type file) "".

Definition admitted (file : File.t) : bool := withinCeiling file && typeRule file.

Definition rejectionMessage (file : File.t) : string :=
  if withinCeiling file then unsupportedMessage file else tooLargeMessage file.

(** A freshly queued item. *)
Definition freshItem (f : BatchFileItem.t) : Prop :=
  BatchFileItem.status f = Idle /\ BatchFileItem.result f = None /\ BatchFileItem.error f = None.

(** The loop guard of the batch branch: the items a run attempts. *)
Definition eligible (f : BatchFileItem.t) : bool :=
  negb (ConversionStatus_eqb (BatchFileItem.status f) Success).

(** The call a run makes for an item. *)
Definition callFor (state : ConversionState.t) (f : BatchFileItem.t) : Call :=
  (InputFile (BatchFileItem.file f), ConversionState.targetFormat state,
   ConversionState.additionalInstructions state).

(** The items the [forEach] loop pushes: one per admitted candidate, in the
    order given, each with the next identifier drawn. *)
Fixpoint pushed (ids : nat -> string) (k : nat) (files : list File.t) : list BatchFileItem.t :=
  match files with
  | [] => []
  | file :: rest =>
      if admitted file
      then BatchFileItem.mk (ids k) file Idle None None :: pushed ids (S k) rest
      else pushed ids k rest
  end.

(** The outcome of the [k]-th call of a run, made for item [f]. *)
Definition outcomeAt (world : nat -> Env.t) (state : ConversionState.t) (k : nat)
  (f : BatchFileItem.t) : string + string :=
  convertContent (world k) (InputFile (BatchFileItem.file f))
    (ConversionState.targetFormat state)
    (Some (ConversionState.additionalInstructions state)).

(** What the three updaters of one loop iteration make of the item. *)
Definition settled (outcome : string + string) (f : BatchFileItem.t) : BatchFileItem.t :=
  match outcome with
  | inr result => markSuccess result (markProcessing f)
  | inl message => markError message (markProcessing f)
  end.

(** The queue the loop leaves, when the next call is the [k]-th. *)
Fixpoint batchResult (world : nat -> Env.t) (state : ConversionState.t) (k : nat)
  (items : list BatchFileItem.t) : list BatchFileItem.t :=
  match items with
  | [] => []
  | f :: rest =>
      if eligible f
      then settled (outcomeAt world state k f) f :: batchResult world state (S k) rest
      else f :: batchResult world state k rest
  end.

(** Every item of every state is consistent. *)
Definition queueConsistent (s : ConversionState.t) : Prop :=
  Forall itemConsistent (ConversionState.batchFiles s).

(** Every succeeded item of the queue carries a non-empty result. *)
Definition succeededNonEmpty (s : ConversionState.t) : Prop :=
  forall f, In f (ConversionState.batchFiles s) -> BatchFileItem.status f = Success ->
            exists text, BatchFileItem.result f = Some text /\ text <> "".

(** A property of states that holds of the state a run is in and of every
    state the run has set. *)
Definition runKeeps (P : ConversionState.t -> Prop) (r : Run.t) : Prop :=
  P (Run.current r) /\ Forall P (Run.history r).

(** ** Sample environments and inputs *)

(** The data URL [FileReader.readAsDataURL] yields for a file whose bytes
    are [ABC]. *)
Definition sampleDataURL (file : File.t) : string :=
  "data:" ++ File.type file ++ ";base64,QUJD".

(** Every file reads as the empty text, the data URL read ends with no
    result, and the model answers with no text. *)
Definition idleEnv : Env.t :=
  Env.mk (fun _ => inr "") (fun _ => inr None) (fun _ => inr (Response.mk None)).

(** Every file reads as [content]; the model call is refused. *)
Definition refusingEnv (content reason : string) : Env.t :=
  Env.mk (fun _ => inr content) (fun file => inr (Some (sampleDataURL file)))
         (fun _ => inl (JsError.Error reason)).

(** Every file reads as [content]; the model answers [answer]. *)
Definition answeringEnv (content answer : string) : Env.t :=
  Env.mk (fun _ => inr content) (fun file => inr (Some (sampleDataURL file)))
         (fun _ => inr (Response.mk (Some answer))).

Definition notesTxt : File.t := File.mk "notes.txt" 120 "text/plain".
Definition scanPdf : File.t := File.mk "scan.pdf" 4096 "application/pdf".
Definition setupExe : File.t := File.mk "setup.exe" 1024 "".
Definition toolBin : File.t := File.mk "tool.bin" 1024 "application/x-msdownload".
Definition hugePng : File.t := File.mk "huge.png" (6 * 1024 * 1024) "image/png".

(** The first call is refused, the later ones are answered. *)
Definition firstRefused (k : nat) : Env.t :=
  match k with
  | O => refusingEnv "a,b" "quota exceeded"
  | S _ => answeringEnv "a,b" "converted"
  end.

(** Identifiers drawn in one call of [processFiles]: [id0], [id1], ... *)
Definition sampleIds (k : nat) : string := "id" ++ Js.digits (N.of_nat k).

(** File mode with [notes.txt] and [scan.pdf] queued. *)
Definition twoQueued : ConversionState.t :=
  processFiles sampleIds [notesTxt; scanPdf] (handleInputModeChange ModeFile initialState).

(** The state after a first run in which the first call was refused. *)
Definition afterFirstRun : ConversionState.t :=
  Run.current (handleConvert firstRefused twoQueued).

(** The state operations; a run of [handleConvert] counts with every state
    it sets, the last of which is the state it ends in. *)
Inductive step : ConversionState.t -> ConversionState.t -> Prop :=
  | step_inputMode mode s : step s (handleInputModeChange mode s)
  | step_processFiles ids files s : step s (handleFiles ids files s)
  | step_removeFile id s : step s (removeFile id s)
  | step_selectActive i s : step s (selectActive i s)
  | step_setTarget format s : step s (setTarget format s)
  | step_setInstructions value s : step s (setInstructions value s)
  | step_setInputText value s : step s (setInputText value s)
  | step_setCustomFilename value s : step s (setCustomFilename value s)
  | step_handleConvert world s s' :
      In s' (Run.history (handleConvert world s)) -> step s s'.

(** ** App.tsx: the output panel and the download *)

(** [state.batchFiles.find(f => f.id === state.activeFileId)] *)
Definition findActive (state : ConversionState.t) : option BatchFileItem.t :=
  match ConversionState.activeFileId state with
  | Some a =>
      find (fun f => String.eqb (BatchFileItem.id f) a) (ConversionState.batchFiles state)
  | None => None
  end.

Definition getCurrentResult (state : ConversionState.t) : string :=
  match ConversionState.inputMode state with
  | ModeText => ConversionState.textResult state
  | ModeFile =>
      if Js.truthy (ConversionState.activeFileId state) then
        match findActive state with
        | Some file => Js.orStr (BatchFileItem.result file) ""
        | None => ""
        end
      else ""
  end.

(** The [switch] of [handleDownload]: extension and content type, with the
    defaults for the targets it has no case for. *)
Definition downloadKind (targetFormat : TargetFormat) : string * string :=
  match targetFormat with
  | JSON => ("json", "application/json")
  | CSV => ("csv", "text/csv")
  | HTML => ("html", "text/html")
  | MARKDOWN => ("md", "text/markdown")
  | XML => ("xml", "text/xml")
  | SQL => ("sql", "text/plain")
  | YAML => ("yaml", "text/yaml")
  | DOCX => ("doc", "application/msword")
  | LATEX | PLAIN_TEXT | MERMAID => ("txt", "text/plain")
  end.

(** [s.lastIndexOf(c)], scanning from index [i] with the last hit so far;
    [None] is [-1]. *)
Fixpoint lastIndexOfFrom (c : ascii) (s : string) (i : nat) (hit : option nat) : option nat :=
  match s with
  | EmptyString => hit
  | String x r => lastIndexOfFrom c r (S i) (if Ascii.eqb x c then Some i else hit)
  end.

(** [name.substring(0, name.lastIndexOf('.')) || name] *)
Definition originalNameOf (name : string) : string :=
  Js.orStr
    (Some (match lastIndexOfFrom "." name 0 None with
           | Some i => String.substring 0 i name
           | None => EmptyString
           end))
    name.

(** The ASCII characters of the class [a-z0-9_\-\s] under the [i] flag. *)
Definition keptAscii (n : N) : bool :=
  ((97 <=? n) && (n <=? 122) || (65 <=? n) && (n <=? 90) || (48 <=? n) && (n <=? 57)
   || (n =? 95) || (n =? 45) || (9 <=? n) && (n <=? 13) || (n =? 32))%N.

(** The code points above U+007F of the class: the ideographs U+4E00 to
    U+9FA5 and the white space and line terminators of [\s]. *)
Definition keptCodePoint (cp : N) : bool :=
  ((19968 <=? cp) && (cp <=? 40869)
   || (cp =? 160) || (cp =? 5760) || (8192 <=? cp) && (cp <=? 8202)
   || (cp =? 8232) || (cp =? 8233) || (cp =? 8239) || (cp =? 8287)
   || (cp =? 12288) || (cp =? 65279))%N.

Definition isContinuation (n : N) : bool := ((128 <=? n) && (n <? 192))%N.

(** [filename.replace(/[^a-z0-9\u4e00-\u9fa5_\-\s]/gi, '_')] on the UTF-8
    bytes of a well-formed string: every UTF-16 code unit outside the class
    becomes one underscore, so a character beyond U+FFFF, two code units,
    becomes two. *)
Fixpoint safeNameOf (s : string) : string :=
  match s with
  | EmptyString => EmptyString
  | String c r =>
      let n := N_of_ascii c in
      if (n <? 128)%N then
        String (if keptAscii n then c else "_"%char) (safeNameOf r)
      else if (n <? 224)%N then
        match r with
        | String c2 r2 =>
            let n2 := N_of_ascii c2 in
            if isContinuation n2 && keptCodePoint ((n - 192) * 64 + (n2 - 128))%N
            then String c (String c2 (safeNameOf r2))
            else String "_"%char (safeNameOf r2)
        | EmptyString => String "_"%char EmptyString
        end
      else if (n <? 240)%N then
        match r with
        | String c2 (String c3 r3) =>
            let n2 := N_of_ascii c2 in
            let n3 := N_of_ascii c3 in
            if isContinuation n2 && isContinuation n3
               && keptCodePoint ((n - 224) * 4096 + (n2 - 128) * 64 + (n3 - 128))%N
            then String c (String c2 (String c3 (safeNameOf r3)))
            else String "_"%char (safeNameOf r3)
        | _ => String "_"%char EmptyString
        end
      else
        match r with
        | String _ (String _ (String _ r4)) =>
            String "_"%char (String "_"%char (safeNameOf r4))
        | _ => String "_"%char EmptyString
        end
  end.

(** What [handleDownload] hands to the browser: the [download] attribute of
    the link, and the type and content of the [Blob]. *)
Module Download.
Record t : Type := mk { download : string; type : string; content : string }.
End Download.

(** The file name before it is made safe. *)
Definition downloadBaseName (state : ConversionState.t) : string :=
  match ConversionState.inputMode state with
  | ModeText => Js.orStr (Some (Js.trim (ConversionState.customFilename state))) "text-convert"
  | ModeFile =>
      if Js.truthy (ConversionState.activeFileId state) then
        match findActive state with
        | Some fileItem =>
            (originalNameOf (File.name (BatchFileItem.file fileItem)) ++ "_converted")%string
        | None => "convert-result"
        end
      else "convert-result"
  end.

(** [handleDownload]: [None] when it returns before creating the link. *)
Definition handleDownload (state : ConversionState.t) : option Download.t :=
  let content := getCurrentResult state in
  if String.eqb content "" then None
  else
    let '(extension, mimeType) := downloadKind (ConversionState.targetFormat state) in
    let safeName := safeNameOf (downloadBaseName state) in
    Some (Download.mk (safeName ++ "." ++ extension)%string mimeType content).

(** Every byte of [s] satisfies [ok]. *)
Fixpoint allBytes (ok : N -> bool) (s : string) : bool :=
  match s with
  | EmptyString => true
  | String c r => ok (N_of_ascii c) && allBytes ok r
  end.

(** A byte of a made-safe name: an ASCII character of the class, or a byte
    of a kept character above U+007F. *)
Definition safeByte (n : N) : bool := (128 <=? n)%N || keptAscii n.

Definition notDot (n : N) : bool := negb (n =? 46)%N.

(** ** More specification-side vocabulary *)

(** Every failed item of the queue carries a non-empty message. *)
Definition failedNonEmpty (s : ConversionState.t) : Prop :=
  forall f, In f (ConversionState.batchFiles s) -> BatchFileItem.status f = Error ->
            exists message, BatchFileItem.error f = Some message /\ message <> "".

(** What a run of [handleConvert] leaves alone in every state it sets: the
    identities and files of the queue, in order, and the user's inputs. *)
Definition sameQueueAndInputs (state s : ConversionState.t) : Prop :=
  map BatchFileItem.id (ConversionState.batchFiles s)
  = map BatchFileItem.id (ConversionState.batchFiles state)
  /\ map BatchFileItem.file (ConversionState.batchFiles s)
     = map BatchFileItem.file (ConversionState.batchFiles state)
  /\ ConversionState.inputMode s = ConversionState.inputMode state
  /\ ConversionState.inputText s = ConversionState.inputText state
  /\ ConversionState.targetFormat s = ConversionState.targetFormat state
  /\ ConversionState.additionalInstructions s = ConversionState.additionalInstructions state
  /\ ConversionState.customFilename s = ConversionState.customFilename state.

(** The three messages of the [catch] block of [convertContent]. *)
Definition transportMessage : string :=
  "文件过大导致网络传输失败。虽然模型很强，但浏览器端传输受限，请尝试压缩 PDF 或使用小于 5MB 的文件。".

Definition apiKeyMessage : string := "API Key 配置无效。".

Definition fallbackMessage : string := "转换内容失败，请重试。".

(** The heading put before the additional instructions. *)
Definition instructionsHeading : string :=
  nl ++ nl ++ "Additional Instructions & Rules:" ++ nl.

(** The prompt of each kind of input. *)
Definition textPrompt (targetFormat : TargetFormat) (text : string) : string :=
  "Convert the following text content to " ++ TargetFormat_value targetFormat
  ++ ":" ++ nl ++ nl ++ text.

Definition textFilePrompt (targetFormat : TargetFormat) (file : File.t)
  (textContent : string) : string :=
  "Convert the following file content to " ++ TargetFormat_value targetFormat
  ++ ". Filename: " ++ File.name file ++ nl ++ nl ++ "Content:" ++ nl ++ textContent.

Definition binaryPrompt (targetFormat : TargetFormat) : string :=
  "Analyze the content of this file and convert it to "
  ++ TargetFormat_value targetFormat ++ ".".

(** The extensions [getMimeType] maps to a type that is not textual. *)
Definition binaryExts : list string :=
  [ "pdf"; "doc"; "docx"; "png"; "jpg"; "jpeg"; "webp"; "heic" ].

(** ** The field editors *)

Ltac unfold_setters :=
  unfold ConversionState.set_inputMode, ConversionState.set_inputText,
    ConversionState.set_batchFiles, ConversionState.set_activeFileId,
    ConversionState.set_targetFormat, ConversionState.set_status,
    ConversionState.set_textResult, ConversionState.set_error,
    ConversionState.set_additionalInstructions, ConversionState.set_customFilename in *;
  cbn [ConversionState.inputMode ConversionState.inputText ConversionState.batchFiles
       ConversionState.activeFileId ConversionState.targetFormat ConversionState.status
       ConversionState.textResult ConversionState.error
       ConversionState.additionalInstructions ConversionState.customFilename] in *.

Ltac unfold_marks :=
  unfold markProcessing, markSuccess, markError, BatchFileItem.set_status,
    BatchFileItem.set_result, BatchFileItem.set_error in *;
  cbn [BatchFileItem.id BatchFileItem.file BatchFileItem.status BatchFileItem.result
       BatchFileItem.error] in *.

(** C8, as stated, fails: choosing a target format or editing the
    instructions leaves a pending error indicator in place. *)
Lemma setTarget_keeps_error :
  let s := ConversionState.set_error (Some "请至少选择一个文件。") initialState in
  ConversionState.error s = Some "请至少选择一个文件。"
  /\ ConversionState.error (setTarget XML s) = Some "请至少选择一个文件。"
  /\ ConversionState.error (setInstructions "keep tables" s) = Some "请至少选择一个文件。"
  /\ ~ (forall format prev, ConversionState.error (setTarget format prev) = None).
Proof.
  repeat split; try reflexivity.
  intro H.
  specialize (H XML (ConversionState.set_error (Some "x") initialState)).
  discriminate H.
Qed.

(** C8, amended: [setTarget] and [setInstructions] replace their own field
    and nothing else, the error indicator included; [setInputText] replaces
    the input text, clears the error indicator and changes nothing else. *)
Theorem field_editors_spec (prev : ConversionState.t) :
  (forall format,
      setTarget format prev =
      ConversionState.mk (ConversionState.inputMode prev) (ConversionState.inputText prev)
        (ConversionState.batchFiles prev) (ConversionState.activeFileId prev) format
        (ConversionState.status prev) (ConversionState.textResult prev)
        (ConversionState.error prev) (ConversionState.additionalInstructions prev)
        (ConversionState.customFilename prev))
  /\ (forall value,
      setInstructions value prev =
      ConversionState.mk (ConversionState.inputMode prev) (ConversionState.inputText prev)
        (ConversionState.batchFiles prev) (ConversionState.activeFileId prev)
        (ConversionState.targetFormat prev) (ConversionState.status prev)
        (ConversionState.textResult prev) (ConversionState.error prev) value
        (ConversionState.customFilename prev))
  /\ (forall value,
      setInputText value prev =
      ConversionState.mk (ConversionState.inputMode prev) value
        (ConversionState.batchFiles prev) (ConversionState.activeFileId prev)
        (ConversionState.targetFormat prev) (ConversionState.status prev)
        (ConversionState.textResult prev) None (ConversionState.additionalInstructions prev)
        (ConversionState.customFilename prev)).
Proof.
  repeat split; intros; unfold setTarget, setInstructions, setInputText;
    unfold_setters; reflexivity.
Qed.

(** ** Validation before a run *)

(** C5: when the precondition of a run fails (text mode with input that
    trims to nothing, file mode with an empty queue), [handleConvert] only
    sets the validation message: it calls [convertContent] not at all, and
    the queue, every item status in it and the run status stay as they
    were. *)
Theorem handleConvert_validation (world : nat -> Env.t) (state : ConversionState.t) :
  (ConversionState.inputMode state = ModeText
   /\ Js.trim (ConversionState.inputText state) = ""
   \/ ConversionState.inputMode state = ModeFile
      /\ ConversionState.batchFiles state = []) ->
  let r := handleConvert world state in
  Run.calls r = []
  /\ Run.current r =
     ConversionState.set_error
       (Some (match ConversionState.inputMode state with
              | ModeText => "请输入需要转换的文本。"
              | ModeFile => "请至少选择一个文件。"
              end)) state
  /\ Run.history r = [Run.current r]
  /\ ConversionState.batchFiles (Run.current r) = ConversionState.batchFiles state
  /\ map BatchFileItem.status (ConversionState.batchFiles (Run.current r))
     = map BatchFileItem.status (ConversionState.batchFiles state)
  /\ ConversionState.status (Run.current r) = ConversionState.status state.
Proof.
  intros [[Hmode Htrim] | [Hmode Hqueue]] r; subst r; unfold handleConvert;
    rewrite Hmode.
  - rewrite Htrim. cbn. repeat split; reflexivity.
  - rewrite Hqueue. cbn. rewrite Hqueue. repeat split; reflexivity.
Qed.

Lemma handleConvert_validation_witness :
  let blank := setInputText (" " ++ nl ++ " ") initialState in
  (ConversionState.inputMode blank = ModeText
   /\ Js.trim (ConversionState.inputText blank) = ""
   \/ ConversionState.inputMode blank = ModeFile
      /\ ConversionState.batchFiles blank = [])
  /\ Run.calls (handleConvert (fun _ => idleEnv) blank) = [].
Proof.
  intro blank.
  assert (H : ConversionState.inputMode blank = ModeText
              /\ Js.trim (ConversionState.inputText blank) = ""
              \/ ConversionState.inputMode blank = ModeFile
                 /\ ConversionState.batchFiles blank = [])
    by (left; split; reflexivity).
  split; [exact H|].
  exact (proj1 (handleConvert_validation (fun _ => idleEnv) blank H)).
Defined.

(** ** Admission to the queue *)

Lemma withinCeiling_false (file : File.t) :
  withinCeiling file = false <-> (MAX_SIZE <? File.size file)%N = true.
Proof.
  unfold withinCeiling. rewrite N.leb_gt, N.ltb_lt. reflexivity.
Qed.

Lemma withinCeiling_true (file : File.t) :
  withinCeiling file = true <-> (MAX_SIZE <? File.size file)%N = false.
Proof.
  unfold withinCeiling. rewrite N.leb_le, N.ltb_ge. reflexivity.
Qed.

(** The callback on an admitted candidate: one fresh item is pushed. *)
Lemma processFile_admitted ids newFiles errorMsg file :
  admitted file = true ->
  processFile ids (newFiles, errorMsg) file =
  (newFiles ++ [BatchFileItem.mk (ids (length newFiles)) file Idle None None], errorMsg).
Proof.
  unfold admitted, typeRule. intros H.
  apply andb_true_iff in H as [Hsize Htype].
  apply withinCeiling_true in Hsize.
  unfold processFile. rewrite Hsize.
  destruct (isValidMime file), (isValidExt file), (String.eqb (File.type file) "");
    cbn in *; try reflexivity; discriminate.
Qed.

(** The callback on a rejected candidate: only the message changes. *)
Lemma processFile_rejected ids newFiles errorMsg file :
  admitted file = false ->
  processFile ids (newFiles, errorMsg) file = (newFiles, Some (rejectionMessage file)).
Proof.
  unfold admitted, typeRule, rejectionMessage, processFile. intros H.
  destruct (withinCeiling file) eqn:Hsize.
  - apply withinCeiling_true in Hsize. rewrite Hsize.
    destruct (isValidMime file), (isValidExt file), (String.eqb (File.type file) "");
      cbn in *; try reflexivity; discriminate.
  - apply withinCeiling_false in Hsize. rewrite Hsize. reflexivity.
Qed.

Lemma rejectionMessage_nonempty file : rejectionMessage file <> "".
Proof.
  unfold rejectionMessage, unsupportedMessage, tooLargeMessage.
  destruct (withinCeiling file); cbn; discriminate.
Qed.

Lemma pushed_files ids files : forall k,
  map BatchFileItem.file (pushed ids k files) = filter admitted files.
Proof.
  induction files as [|file rest IH]; intros k; cbn; [reflexivity|].
  destruct (admitted file); cbn; rewrite ?IH; reflexivity.
Qed.

Lemma pushed_fresh ids files : forall k, Forall freshItem (pushed ids k files).
Proof.
  induction files as [|file rest IH]; intros k; cbn; [constructor|].
  destruct (admitted file); [constructor; [repeat split | apply IH] | apply IH].
Qed.

Lemma pushed_ids ids files : forall k,
  map BatchFileItem.id (pushed ids k files)
  = map ids (seq k (length (filter admitted files))).
Proof.
  induction files as [|file rest IH]; intros k; cbn; [reflexivity|].
  destruct (admitted file); cbn; rewrite ?IH; reflexivity.
Qed.

(** The loop, from any value of its two variables. *)
Lemma processFile_fold ids files : forall newFiles errorMsg,
  exists errorMsg',
    fold_left (processFile ids) files (newFiles, errorMsg)
    = (newFiles ++ pushed ids (length newFiles) files, errorMsg')
    /\ (forallb admitted files = true -> errorMsg' = errorMsg)
    /\ (forall before file after,
          files = before ++ file :: after -> admitted file = false ->
          forallb admitted after = true ->
          errorMsg' = Some (rejectionMessage file)).
Proof.
  induction files as [|file rest IH]; intros newFiles errorMsg.
  - exists errorMsg. cbn. rewrite app_nil_r. repeat split; auto.
    intros [|? ?] ? ? H; discriminate H.
  - cbn [fold_left pushed]. destruct (admitted file) eqn:Hadm.
    + rewrite processFile_admitted by assumption.
      destruct (IH (newFiles ++ [BatchFileItem.mk (ids (length newFiles)) file Idle None None])
                   errorMsg) as (e' & Hfold & Hall & Hlast).
      exists e'. rewrite Hfold, length_app, Nat.add_1_r, <- app_assoc. cbn [app length].
      split; [reflexivity|]. split.
      * cbn. rewrite Hadm. exact Hall.
      * intros [|b before] f after Heq Hrej Hafter; cbn in Heq; injection Heq as -> ->.
        -- congruence.
        -- eapply Hlast; eauto.
    + rewrite processFile_rejected by assumption.
      destruct (IH newFiles (Some (rejectionMessage file))) as (e' & Hfold & Hall & Hlast).
      exists e'. rewrite Hfold. split; [reflexivity|]. split.
      * cbn. rewrite Hadm. discriminate.
      * intros [|b before] f after Heq Hrej Hafter; cbn in Heq; injection Heq as -> ->.
        -- apply Hall. exact Hafter.
        -- eapply Hlast; eauto.
Qed.

Lemma some_rejected_last files :
  forallb admitted files = false ->
  exists before file after,
    files = before ++ file :: after /\ admitted file = false
    /\ forallb admitted after = true.
Proof.
  induction files as [|a rest IH]; cbn; [discriminate|].
  intros H. destruct (forallb admitted rest) eqn:Hrest.
  - exists [], a, rest. rewrite andb_true_r in H. auto.
  - destruct (IH eq_refl) as (before & file & after & -> & Hrej & Hafter).
    exists (a :: before), file, after. auto.
Qed.

(** C3, as stated, fails: a candidate whose declared type is empty is
    queued, and leaves no rejection message, although neither its declared
    type nor its extension matches the allow-list. *)
Lemma unlisted_candidate_queued_silently :
  let next := processFiles sampleIds [setupExe; notesTxt] initialState in
  withinCeiling setupExe = true
  /\ isValidMime setupExe = false
  /\ isValidExt setupExe = false
  /\ typeRuleAsSpecified setupExe = false
  /\ map BatchFileItem.file (ConversionState.batchFiles next) = [setupExe; notesTxt]
  /\ ConversionState.error next = None
  /\ ~ (forall file,
          In file [setupExe; notesTxt] ->
          isValidMime file = false -> isValidExt file = false ->
          ~ In file (map BatchFileItem.file (ConversionState.batchFiles next))).
Proof.
  intros next. repeat (split; [reflexivity|]).
  intros H. apply (H setupExe); [left; reflexivity | reflexivity | reflexivity |].
  left. reflexivity.
Qed.

(** C3, amended: [processFiles] checks each candidate against the size
    ceiling of 5 MiB and against the type rule of the code, which a
    candidate passes when its declared type is empty, or begins with an
    entry of the allow-list, or when its dotted lower-cased extension
    occurs in the accept string. It appends to the queue exactly the
    candidates that pass both, in the order given and as fresh items; a
    candidate that fails one is not appended and leaves a non-empty
    rejection message in the state (the message of the last rejected
    candidate), without stopping the others; a candidate above the ceiling
    is rejected whatever its declared type, with the size message. *)
Theorem processFiles_admission (ids : nat -> string) (files : list File.t)
  (prev : ConversionState.t) :
  let next := processFiles ids files prev in
  MAX_SIZE = 5242880%N
  /\ (exists newFiles,
        ConversionState.batchFiles next = ConversionState.batchFiles prev ++ newFiles
        /\ map BatchFileItem.file newFiles = filter admitted files
        /\ Forall freshItem newFiles)
  /\ (forall file, In file files -> admitted file = false ->
        exists msg, ConversionState.error next = Some msg /\ msg <> "")
  /\ (forall before file after,
        files = before ++ file :: after -> admitted file = false ->
        forallb admitted after = true ->
        ConversionState.error next = Some (rejectionMessage file))
  /\ (forallb admitted files = true ->
        ConversionState.error next = ConversionState.error prev)
  /\ (forall file, (MAX_SIZE < File.size file)%N ->
        admitted file = false /\ rejectionMessage file = tooLargeMessage file)
  /\ (forall file,
        admitted file = true <->
        (File.size file <= MAX_SIZE)%N
        /\ (File.type file = "" \/ isValidMime file = true \/ isValidExt file = true)).
Proof.
  intros next. subst next. unfold processFiles.
  destruct (processFile_fold ids files [] None) as (e' & Hfold & Hall & Hlast).
  rewrite Hfold. cbn [app length].
  assert (Hmsg : forall before file after,
             files = before ++ file :: after -> admitted file = false ->
             forallb admitted after = true ->
             Js.or e' (ConversionState.error prev) = Some (rejectionMessage file)).
  { intros before file after Heq Hrej Hafter.
    rewrite (Hlast before file after Heq Hrej Hafter).
    unfold Js.or, Js.truthy.
    destruct (String.eqb_spec (rejectionMessage file) "") as [E|_]; [|reflexivity].
    exfalso. exact (rejectionMessage_nonempty file E). }
  split; [reflexivity|]. split; [|split; [|split; [|split; [|split]]]].
  - exists (pushed ids 0 files). unfold_setters.
    split; [reflexivity|]. split; [apply pushed_files | apply pushed_fresh].
  - intros file Hin Hrej.
    assert (Hsome : forallb admitted files = false).
    { destruct (forallb admitted files) eqn:E; [|reflexivity].
      rewrite forallb_forall in E. rewrite (E file Hin) in Hrej. discriminate. }
    destruct (some_rejected_last files Hsome) as (before & f & after & Heq & Hf & Hafter).
    exists (rejectionMessage f). unfold_setters.
    split; [eapply Hmsg; eauto | apply rejectionMessage_nonempty].
  - intros before file after Heq Hrej Hafter. unfold_setters. eapply Hmsg; eauto.
  - intros Hadm. unfold_setters. rewrite (Hall Hadm). reflexivity.
  - intros file Hsize. unfold admitted, rejectionMessage, withinCeiling.
    apply N.leb_gt in Hsize. rewrite Hsize. split; reflexivity.
  - intros file. unfold admitted, typeRule, withinCeiling.
    rewrite andb_true_iff, N.leb_le, !orb_true_iff, String.eqb_eq. tauto.
Qed.

(** The 6 MiB test of the specification, next to two admitted candidates. *)
Example processFiles_six_mebibytes :
  let next := processFiles sampleIds [notesTxt; hugePng; scanPdf] initialState in
  map BatchFileItem.file (ConversionState.batchFiles next) = [notesTxt; scanPdf]
  /\ map BatchFileItem.id (ConversionState.batchFiles next) = ["id0"; "id1"]
  /\ ConversionState.activeFileId next = Some "id0"
  /\ ConversionState.error next
     = Some "文件 huge.png 过大 (6.0MB)。请上传 5MB 以内的文件。".
Proof. vm_compute. repeat split. Qed.

Lemma prefix_refl (s : string) : String.prefix s s = true.
Proof.
  induction s as [|c r IH]; cbn; [reflexivity|].
  destruct (ascii_dec c c); [exact IH | congruence].
Qed.

Lemma append_assoc (a b c : string) : ((a ++ b) ++ c = a ++ (b ++ c))%string.
Proof.
  induction a as [|x r IH]; cbn; [reflexivity | rewrite IH; reflexivity].
Qed.

Lemma isValidMime_spec (file : File.t) :
  isValidMime file = true <->
  exists type, In type SUPPORTED_FILE_TYPES /\ String.prefix type (File.type file) = true.
Proof.
  unfold isValidMime. rewrite existsb_exists. split.
  - intros (t & Hin & H). exists t. split; [exact Hin|].
    apply orb_true_iff in H as [H|H]; [|exact H].
    apply String.eqb_eq in H. rewrite H. apply prefix_refl.
  - intros (t & Hin & H). exists t. split; [exact Hin|].
    unfold Js.startsWith. rewrite H. apply orb_true_r.
Qed.

(** C4, as stated, fails: a candidate with an empty declared type is
    admitted even when its extension matches nothing, so the extension does
    not decide. *)
Lemma empty_type_admitted_counterexample :
  withinCeiling setupExe = true
  /\ File.type setupExe = ""
  /\ isValidMime setupExe = false
  /\ isValidExt setupExe = false
  /\ typeRuleAsSpecified setupExe = false
  /\ map BatchFileItem.file
       (ConversionState.batchFiles (processFiles sampleIds [setupExe] initialState))
     = [setupExe]
  /\ ConversionState.error (processFiles sampleIds [setupExe] initialState) = None.
Proof. vm_compute. repeat split. Qed.

(** C4, amended: a candidate within the size ceiling is rejected exactly
    when its declared type is not empty and neither that type begins with an
    entry of [SUPPORTED_FILE_TYPES] nor its dotted, lower-cased extension
    occurs in [ACCEPT_STRING]; it then leaves the unsupported-type message.
    A candidate with an empty declared type is admitted whatever its
    extension. *)
Theorem processFiles_type_rule (ids : nat -> string) (file : File.t)
  (prev : ConversionState.t) :
  (File.size file <= MAX_SIZE)%N ->
  let next := processFiles ids [file] prev in
  let rejected :=
    negb (String.eqb (File.type file) "") && negb (isValidMime file)
    && negb (isValidExt file) in
  ConversionState.batchFiles next
  = ConversionState.batchFiles prev
    ++ (if rejected then [] else [BatchFileItem.mk (ids 0%nat) file Idle None None])
  /\ (rejected = true ->
      ConversionState.error next = Some ("不支持的文件类型: " ++ File.name file)%string)
  /\ (rejected = false -> ConversionState.error next = ConversionState.error prev)
  /\ (File.type file = "" -> rejected = false)
  /\ (rejected = true <->
      File.type file <> ""
      /\ (forall type, In type SUPPORTED_FILE_TYPES ->
            String.prefix type (File.type file) = false)
      /\ Js.includes ACCEPT_STRING (fileExtOf file) = false).
Proof.
  intros Hsize. cbv zeta.
  remember (negb (String.eqb (File.type file) "") && negb (isValidMime file)
            && negb (isValidExt file)) as rejected eqn:Hrej.
  symmetry in Hrej.
  assert (Hceil : withinCeiling file = true) by (apply N.leb_le; exact Hsize).
  assert (Hadm : admitted file = negb rejected).
  { unfold admitted, typeRule. rewrite Hceil, <- Hrej.
    destruct (isValidMime file), (isValidExt file), (String.eqb (File.type file) "");
      reflexivity. }
  unfold processFiles. cbn [fold_left].
  destruct rejected; cbn [negb] in Hadm.
  - rewrite (processFile_rejected ids [] None file Hadm). unfold_setters.
    unfold rejectionMessage. rewrite Hceil.
    split; [reflexivity|]. split; [reflexivity|]. split; [discriminate|].
    split; [intros H; rewrite H in Hrej; discriminate|].
    split; [|intros _; reflexivity]. intros _.
    apply andb_true_iff in Hrej as [Hrej Hext].
    apply andb_true_iff in Hrej as [Htype Hmime].
    apply negb_true_iff in Hext, Htype, Hmime.
    split; [apply String.eqb_neq; exact Htype|]. split; [|exact Hext].
    intros type Hin. destruct (String.prefix type (File.type file)) eqn:E; [|reflexivity].
    assert (isValidMime file = true) by (apply isValidMime_spec; eauto). congruence.
  - rewrite (processFile_admitted ids [] None file Hadm). unfold_setters. cbn [length].
    split; [reflexivity|]. split; [discriminate|]. split; [reflexivity|].
    split; [reflexivity|]. split; [discriminate|].
    intros (Htype & Hmime & Hext). exfalso.
    apply String.eqb_neq in Htype. unfold isValidExt in Hrej. rewrite Htype, Hext in Hrej.
    destruct (isValidMime file) eqn:E; [|discriminate Hrej].
    apply isValidMime_spec in E as (t & Hin & Hp). rewrite (Hmime t Hin) in Hp. discriminate.
Qed.

Lemma processFiles_type_rule_witness :
  (File.size toolBin <= MAX_SIZE)%N
  /\ ConversionState.batchFiles (processFiles sampleIds [toolBin] initialState) = []
  /\ ConversionState.batchFiles (processFiles sampleIds [setupExe] initialState)
     = [BatchFileItem.mk (sampleIds 0%nat) setupExe Idle None None].
Proof.
  assert (H1 : (File.size toolBin <= MAX_SIZE)%N) by (vm_compute; discriminate).
  assert (H2 : (File.size setupExe <= MAX_SIZE)%N) by (vm_compute; discriminate).
  split; [exact H1|]. split.
  - exact (proj1 (processFiles_type_rule sampleIds toolBin initialState H1)).
  - exact (proj1 (processFiles_type_rule sampleIds setupExe initialState H2)).
Defined.

(** ** The conversion service *)

Lemma orStr_nonempty (a : option string) (lit : string) : lit <> "" -> Js.orStr a lit <> "".
Proof.
  intros Hlit. unfold Js.orStr. destruct a as [s|]; [|exact Hlit].
  destruct (String.eqb_spec s ""); assumption.
Qed.

(** What [convertContent] does once its request is built. *)
Lemma convertContent_after_request env input targetFormat instructions request :
  buildRequest env input targetFormat instructions = inr request ->
  convertContent env input targetFormat instructions =
  match Env.generateContent env request with
  | inr response => inr (Js.orStr (Response.text response) noContentPlaceholder)
  | inl error => inl (convertContentCatch error)
  end.
Proof.
  intros H. unfold convertContent, convertContentTry. rewrite H. cbn.
  destruct (Env.generateContent env request); reflexivity.
Qed.

Lemma withInstructions_text prompt promptText instructions :
  exists extra,
    withInstructions [TextPart prompt] promptText instructions = TextPart prompt :: extra
    /\ Forall (fun p => hasInlineData p = false) extra.
Proof.
  unfold withInstructions. cbn.
  destruct (givenInstructions instructions) as [i|]; eexists; split;
    try reflexivity; repeat constructor.
Qed.

Lemma withInstructions_binary filePart promptText instructions :
  exists text,
    withInstructions [InlineDataPart filePart] promptText instructions
    = [InlineDataPart filePart; TextPart text]
    /\ String.prefix promptText text = true.
Proof.
  unfold withInstructions. cbn.
  destruct (givenInstructions instructions) as [i|]; eexists; split; try reflexivity.
  - induction promptText as [|c r IH]; cbn; [reflexivity|].
    destruct (ascii_dec c c); [exact IH | congruence].
  - apply prefix_refl.
Qed.

(** C9: the transport follows [isTextFile]. For a textual file that reads
    as [textContent], the request sent to the model starts with a text part
    ending in [textContent] and holds no inline-data part. For any other
    file whose data URL is read, the request is the inline-data part, made
    of the payload of the data URL and of [getMimeType file], followed by
    one text part; that type is the declared type unless it is empty or
    [application/octet-stream], and is then the type of the extension. *)
Theorem convertContent_transport (env : Env.t) (file : File.t)
  (targetFormat : TargetFormat) (instructions : option string) :
  (isTextFile file = true ->
   forall textContent, Env.readAsText env file = inr textContent ->
   exists request heading extra,
     buildRequest env (InputFile file) targetFormat instructions = inr request
     /\ convertContent env (InputFile file) targetFormat instructions =
        match Env.generateContent env request with
        | inr response => inr (Js.orStr (Response.text response) noContentPlaceholder)
        | inl error => inl (convertContentCatch error)
        end
     /\ Request.parts request = TextPart (heading ++ textContent)%string :: extra
     /\ Forall (fun p => hasInlineData p = false) (Request.parts request))
  /\ (isTextFile file = false ->
      forall dataUrl, Env.readAsDataURL env file = inr (Some dataUrl) -> dataUrl <> "" ->
      exists request text,
        buildRequest env (InputFile file) targetFormat instructions = inr request
        /\ convertContent env (InputFile file) targetFormat instructions =
           match Env.generateContent env request with
           | inr response => inr (Js.orStr (Response.text response) noContentPlaceholder)
           | inl error => inl (convertContentCatch error)
           end
        /\ Request.parts request =
           [InlineDataPart (InlineData.mk (nth_error (Js.split "," dataUrl) 1)
                                          (getMimeType file));
            TextPart text])
  /\ (File.type file <> "" -> File.type file <> "application/octet-stream" ->
      getMimeType file = File.type file)
  /\ (isTextFile file = false ->
      File.type file = "" \/ File.type file = "application/octet-stream" ->
      exists ext mime,
        extensionOf file = Some ext /\ getMimeType file = mime
        /\ In (ext, mime)
             [ ("pdf", "application/pdf");
               ("doc", "application/vnd.openxmlformats-officedocument.wordprocessingml.document");
               ("docx", "application/vnd.openxmlformats-officedocument.wordprocessingml.document");
               ("png", "image/png"); ("jpg", "image/jpeg"); ("jpeg", "image/jpeg");
               ("webp", "image/webp"); ("heic", "image/heic") ]).
Proof.
  split; [|split; [|split]].
  - intros Htext textContent Hread.
    destruct (withInstructions_text
                ("Convert the following file content to " ++ TargetFormat_value targetFormat
                 ++ ". Filename: " ++ File.name file ++ nl ++ nl ++ "Content:" ++ nl
                 ++ textContent)%string
                ("Convert the following file content to " ++ TargetFormat_value targetFormat
                 ++ ". Filename: " ++ File.name file ++ nl ++ nl ++ "Content:" ++ nl
                 ++ textContent)%string instructions) as (extra & Hparts & Hextra).
    assert (Hreq : buildRequest env (InputFile file) targetFormat instructions
                   = inr (Request.mk modelId
                            (TextPart ("Convert the following file content to "
                                       ++ TargetFormat_value targetFormat
                                       ++ ". Filename: " ++ File.name file ++ nl ++ nl
                                       ++ "Content:" ++ nl ++ textContent)%string :: extra)
                            (configFor targetFormat false))).
    { unfold buildRequest, inputParts, readTextFile. rewrite Htext, Hread. cbn [await resolve].
      rewrite Hparts. reflexivity. }
    eexists. exists ("Convert the following file content to " ++ TargetFormat_value targetFormat
                     ++ ". Filename: " ++ File.name file ++ nl ++ nl ++ "Content:" ++ nl)%string.
    exists extra. split; [exact Hreq|]. split; [apply convertContent_after_request; exact Hreq|].
    cbn [Request.parts]. split.
    + f_equal. f_equal. repeat rewrite append_assoc. reflexivity.
    + constructor; [reflexivity | exact Hextra].
  - intros Hbin dataUrl Hread Hne.
    destruct (withInstructions_binary
                (InlineData.mk (nth_error (Js.split "," dataUrl) 1) (getMimeType file))
                ("Analyze the content of this file and convert it to "
                 ++ TargetFormat_value targetFormat ++ ".")%string instructions)
      as (text & Hparts & _).
    assert (Hreq : buildRequest env (InputFile file) targetFormat instructions
                   = inr (Request.mk modelId
                            [InlineDataPart (InlineData.mk (nth_error (Js.split "," dataUrl) 1)
                                                           (getMimeType file));
                             TextPart text]
                            (configFor targetFormat
                               (String.eqb (getMimeType file) "application/pdf")))).
    { unfold buildRequest, inputParts, fileToGenerativePart. rewrite Hbin, Hread.
      cbn [await resolve]. apply String.eqb_neq in Hne. rewrite Hne. cbn [await resolve].
      rewrite Hparts. reflexivity. }
    eexists. exists text. split; [exact Hreq|].
    split; [apply convertContent_after_request; exact Hreq | reflexivity].
  - intros H1 H2. unfold getMimeType.
    apply String.eqb_neq in H1, H2. rewrite H1, H2. reflexivity.
  - intros Hbin Htype. unfold isTextFile in Hbin.
    assert (Hmime : getMimeType file =
              let ext := extensionOf file in
              if extIs ext "pdf" then "application/pdf"
              else if extIs ext "csv" then "text/csv"
              else if extIs ext "json" then "application/json"
              else if extIs ext "xml" then "text/xml"
              else if extIs ext "html" then "text/html"
              else if extIs ext "md" then "text/markdown"
              else if extIs ext "txt" then "text/plain"
              else if extIs ext "doc" || extIs ext "docx"
                then "application/vnd.openxmlformats-officedocument.wordprocessingml.document"
              else if extIs ext "png" then "image/png"
              else if extIs ext "jpg" || extIs ext "jpeg" then "image/jpeg"
              else if extIs ext "webp" then "image/webp"
              else if extIs ext "heic" then "image/heic"
              else "text/plain").
    { unfold getMimeType. destruct Htype as [-> | ->]; reflexivity. }
    rewrite Hmime in *. clear Hmime. cbv zeta in *.
    destruct (extensionOf file) as [ext|] eqn:Hext; [|cbn in Hbin; discriminate Hbin].
    unfold extIs in *.
    repeat match goal with
    | H : context [String.eqb ext ?lit] |- _ =>
        destruct (String.eqb_spec ext lit);
        [ subst ext; first [ discriminate H
                           | eexists; eexists; split; [reflexivity|];
                             split; [reflexivity|]; cbn; tauto ]
        | cbn [orb] in H |- * ]
    end.
    cbn in Hbin. discriminate Hbin.
Qed.

Lemma convertContent_transport_witness :
  isTextFile notesTxt = true
  /\ isTextFile scanPdf = false
  /\ (exists request,
        buildRequest (answeringEnv "a,b" "ok") (InputFile notesTxt) CSV (Some "") = inr request
        /\ Forall (fun p => hasInlineData p = false) (Request.parts request))
  /\ (exists request text,
        buildRequest (answeringEnv "a,b" "ok") (InputFile scanPdf) CSV (Some "") = inr request
        /\ Request.parts request =
           [InlineDataPart (InlineData.mk (Some "QUJD") "application/pdf"); TextPart text]).
Proof.
  assert (H1 : isTextFile notesTxt = true) by reflexivity.
  assert (H2 : isTextFile scanPdf = false) by reflexivity.
  split; [exact H1|]. split; [exact H2|]. split.
  - destruct (proj1 (convertContent_transport (answeringEnv "a,b" "ok") notesTxt CSV (Some ""))
                H1 "a,b" eq_refl) as (request & heading & extra & Hreq & _ & _ & Hall).
    exists request. split; assumption.
  - destruct (proj1 (proj2 (convertContent_transport (answeringEnv "a,b" "ok") scanPdf CSV
                              (Some "")))
                H2 "data:application/pdf;base64,QUJD" eq_refl ltac:(discriminate))
      as (request & text & Hreq & _ & Hparts).
    exists request, text. split; [exact Hreq | exact Hparts].
Defined.

(** ** Invariants of a run *)

Lemma updateItem_ids fileItem change prev :
  (forall f, BatchFileItem.id (change f) = BatchFileItem.id f) ->
  map BatchFileItem.id (updateItem fileItem change prev) = queueIds prev.
Proof.
  intros Hid. unfold updateItem, queueIds. rewrite map_map. apply map_ext.
  intros f. destruct (String.eqb _ _); [apply Hid | reflexivity].
Qed.

(** With distinct identities, the update reaches the one item it names. *)
Lemma updateItem_at fileItem change prev before f after :
  ConversionState.batchFiles prev = before ++ f :: after ->
  BatchFileItem.id f = BatchFileItem.id fileItem ->
  NoDup (queueIds prev) ->
  updateItem fileItem change prev = before ++ change f :: after.
Proof.
  intros Hq Hid Hnd. unfold updateItem, queueIds in *. rewrite Hq in *.
  rewrite map_app in *. cbn [map] in *. rewrite Hid in *.
  apply NoDup_remove_2 in Hnd. rewrite String.eqb_refl. f_equal; [|f_equal].
  - rewrite <- (map_id before) at 2. apply map_ext_in. intros g Hg.
    destruct (String.eqb_spec (BatchFileItem.id g) (BatchFileItem.id fileItem)) as [E|_];
      [|reflexivity].
    exfalso. apply Hnd, in_or_app. left. rewrite <- E. apply in_map. exact Hg.
  - rewrite <- (map_id after) at 2. apply map_ext_in. intros g Hg.
    destruct (String.eqb_spec (BatchFileItem.id g) (BatchFileItem.id fileItem)) as [E|_];
      [|reflexivity].
    exfalso. apply Hnd, in_or_app. right. rewrite <- E. apply in_map. exact Hg.
Qed.

Section RunInvariant.

Variable world : nat -> Env.t.
Variable state : ConversionState.t.

(** A property of states kept by every updater [handleConvert] passes to
    [setState]. *)
Variable P : ConversionState.t -> Prop.

Hypothesis P_error : forall v prev, P prev -> P (ConversionState.set_error v prev).
Hypothesis P_status : forall v prev, P prev -> P (ConversionState.set_status v prev).
Hypothesis P_textResult : forall v prev, P prev -> P (ConversionState.set_textResult v prev).
Hypothesis P_processing : forall fileItem prev,
  In fileItem (ConversionState.batchFiles state) -> P prev ->
  P (ConversionState.set_batchFiles (updateItem fileItem markProcessing prev)
       (ConversionState.set_activeFileId (Some (BatchFileItem.id fileItem)) prev)).
Hypothesis P_success : forall fileItem k result prev,
  In fileItem (ConversionState.batchFiles state) ->
  convertContent (world k) (InputFile (BatchFileItem.file fileItem))
    (ConversionState.targetFormat state)
    (Some (ConversionState.additionalInstructions state)) = inr result ->
  P prev ->
  P (ConversionState.set_batchFiles (updateItem fileItem (markSuccess result) prev) prev).
Hypothesis P_failure : forall fileItem message prev,
  In fileItem (ConversionState.batchFiles state) -> P prev ->
  P (ConversionState.set_batchFiles (updateItem fileItem (markError message) prev) prev).

Lemma setState_keeps updater r :
  runKeeps P r -> P (updater (Run.current r)) -> runKeeps P (setState updater r).
Proof.
  intros [Hc Hh] Hu. split; cbn; [exact Hu | constructor; assumption].
Qed.

Lemma convertItem_keeps r fileItem :
  In fileItem (ConversionState.batchFiles state) -> runKeeps P r ->
  runKeeps P (convertItem world state r fileItem).
Proof.
  intros Hin Hr. unfold convertItem.
  destruct (ConversionStatus_eqb (BatchFileItem.status fileItem) Success); [exact Hr|].
  unfold awaitConvertContent. cbn [Run.calls Run.current Run.history setState].
  destruct (convertContent _ _ _ _) as [message|result] eqn:Hout.
  - apply setState_keeps; cbn [Run.current].
    + split; cbn; [apply P_processing; [exact Hin | apply Hr]|].
      constructor; [apply P_processing; [exact Hin | apply Hr] | apply Hr].
    + apply P_failure; [exact Hin|]. apply P_processing; [exact Hin | apply Hr].
  - apply setState_keeps; cbn [Run.current].
    + split; cbn; [apply P_processing; [exact Hin | apply Hr]|].
      constructor; [apply P_processing; [exact Hin | apply Hr] | apply Hr].
    + eapply P_success; [exact Hin | exact Hout |].
      apply P_processing; [exact Hin | apply Hr].
Qed.

Lemma loop_keeps items : forall r,
  incl items (ConversionState.batchFiles state) -> runKeeps P r ->
  runKeeps P (fold_left (convertItem world state) items r).
Proof.
  induction items as [|f rest IH]; intros r Hincl Hr; cbn [fold_left]; [exact Hr|].
  apply IH.
  - intros g Hg. apply Hincl. right. exact Hg.
  - apply convertItem_keeps; [apply Hincl; left; reflexivity | exact Hr].
Qed.

(** Every state a run sets, the last one included, has the property. *)
Lemma handleConvert_keeps :
  P state -> runKeeps P (handleConvert world state).
Proof.
  intros Hs.
  assert (H0 : runKeeps P (Run.start state)) by (split; [exact Hs | constructor]).
  unfold handleConvert. destruct (ConversionState.inputMode state).
  - destruct (String.eqb _ _).
    + apply setState_keeps; [exact H0 | apply P_error; exact Hs].
    + unfold awaitConvertContent. cbn [Run.calls Run.current Run.history setState Run.start].
      destruct (convertContent _ _ _ _) as [message|result].
      * apply setState_keeps; cbn [Run.current].
        -- split; cbn; [|constructor; [|constructor]]; apply P_error, P_status, Hs.
        -- apply P_error, P_status, P_error, P_status, Hs.
      * apply setState_keeps; cbn [Run.current].
        -- split; cbn; [|constructor; [|constructor]]; apply P_error, P_status, Hs.
        -- apply P_textResult, P_status, P_error, P_status, Hs.
  - case_eq (ConversionState.batchFiles state); [intros _ | intros f0 rest Hq].
    + apply setState_keeps; [exact H0 | apply P_error; exact Hs].
    + rewrite <- Hq.
      assert (H1 : runKeeps P (fold_left (convertItem world state)
                               (ConversionState.batchFiles state)
                               (setState (fun prev =>
                                  ConversionState.set_error None
                                    (ConversionState.set_status Processing prev))
                                  (Run.start state)))).
      { apply loop_keeps; [apply incl_refl|].
        apply setState_keeps; [exact H0 | apply P_error, P_status, Hs]. }
      apply setState_keeps; [exact H1 | apply P_status; apply H1].
Qed.

End RunInvariant.

(** ** The active item *)

Lemma processFiles_queue ids files prev :
  ConversionState.batchFiles (processFiles ids files prev)
  = ConversionState.batchFiles prev ++ pushed ids 0 files
  /\ ConversionState.activeFileId (processFiles ids files prev)
     = Js.or (ConversionState.activeFileId prev)
             (match pushed ids 0 files with
              | f :: _ => Some (BatchFileItem.id f)
              | [] => ConversionState.activeFileId prev
              end).
Proof.
  unfold processFiles.
  destruct (processFile_fold ids files [] None) as (e' & Hfold & _).
  rewrite Hfold. cbn [app length]. unfold_setters. split; reflexivity.
Qed.

Lemma processFiles_activeValid ids files prev :
  activeValid prev -> activeValid (processFiles ids files prev).
Proof.
  destruct (processFiles_queue ids files prev) as [Hq Ha].
  unfold activeValid, queueIds. rewrite Hq, Ha, map_app. intros Hv.
  unfold Js.or. destruct (Js.truthy (ConversionState.activeFileId prev)) eqn:Ht.
  - destruct (ConversionState.activeFileId prev) as [a|]; [|exact I].
    apply in_or_app. left. exact Hv.
  - destruct (pushed ids 0 files) as [|f rest].
    + destruct (ConversionState.activeFileId prev) as [a|]; [|exact I].
      apply in_or_app. left. exact Hv.
    + apply in_or_app. right. left. reflexivity.
Qed.

Lemma removeFile_activeValid id prev :
  activeValid prev -> activeValid (removeFile id prev).
Proof.
  unfold activeValid, queueIds, removeFile. unfold_setters.
  destruct (ConversionState.activeFileId prev) as [a|]; [|intros _; exact I].
  intros Hv. destruct (String.eqb_spec id a) as [->|Hne].
  - destruct (filter _ _) as [|f rest]; [exact I | left; reflexivity].
  - apply in_map_iff in Hv as (f & Hf & Hin). apply in_map_iff. exists f.
    split; [exact Hf|]. apply filter_In. split; [exact Hin|].
    apply negb_true_iff, String.eqb_neq. congruence.
Qed.

Lemma selectActive_activeValid i prev :
  activeValid prev -> activeValid (selectActive i prev).
Proof.
  unfold selectActive. destruct (nth_error _ i) as [file|] eqn:Hnth; [|auto].
  intros _. unfold activeValid, queueIds. unfold_setters.
  apply in_map. eapply nth_error_In. exact Hnth.
Qed.

(** During a run the identities of the queue stay put and the active
    identity stays among them. *)
Lemma handleConvert_activeValid world state :
  activeValid state ->
  runKeeps (fun s => queueIds s = queueIds state /\ activeValid s) (handleConvert world state).
Proof.
  intros Hv. apply handleConvert_keeps; try (split; [reflexivity | exact Hv]).
  - intros v prev H. exact H.
  - intros v prev H. exact H.
  - intros v prev H. exact H.
  - intros fileItem prev Hin [Hids _].
    assert (Hids' : queueIds (ConversionState.set_batchFiles
                                (updateItem fileItem markProcessing prev)
                                (ConversionState.set_activeFileId
                                   (Some (BatchFileItem.id fileItem)) prev))
                    = queueIds state).
    { unfold queueIds at 1. unfold_setters.
      rewrite <- Hids. apply updateItem_ids. reflexivity. }
    split; [exact Hids'|]. unfold activeValid. rewrite Hids'. unfold_setters.
    apply in_map. exact Hin.
  - intros fileItem k result prev Hin _ [Hids Hact].
    assert (Hids' : queueIds (ConversionState.set_batchFiles
                                (updateItem fileItem (markSuccess result) prev) prev)
                    = queueIds prev).
    { unfold queueIds at 1. unfold_setters. apply updateItem_ids. reflexivity. }
    split; [congruence|]. unfold activeValid in *. rewrite Hids'. exact Hact.
  - intros fileItem message prev Hin [Hids Hact].
    assert (Hids' : queueIds (ConversionState.set_batchFiles
                                (updateItem fileItem (markError message) prev) prev)
                    = queueIds prev).
    { unfold queueIds at 1. unfold_setters. apply updateItem_ids. reflexivity. }
    split; [congruence|]. unfold activeValid in *. rewrite Hids'. exact Hact.
Qed.

(** C6: from a state whose active identity is unset or names a queued
    item, every state operation (and every state a run of [handleConvert]
    sets) leads to such a state again. [processFiles] on an unset active
    identity selects the first item it appends; [removeFile] of the active
    item selects the first remaining item, or none when the queue is left
    empty, and leaves the selection alone otherwise; the row click selects
    an item of the queue or changes nothing. *)
Theorem activeFileId_invariant (s : ConversionState.t) :
  activeValid s ->
  (forall s', step s s' -> activeValid s')
  /\ (forall ids files first rest,
        ConversionState.activeFileId s = None ->
        ConversionState.batchFiles (processFiles ids files s)
        = ConversionState.batchFiles s ++ first :: rest ->
        ConversionState.activeFileId (processFiles ids files s)
        = Some (BatchFileItem.id first))
  /\ (forall id,
        ConversionState.activeFileId s = Some id ->
        ConversionState.activeFileId (removeFile id s)
        = match ConversionState.batchFiles (removeFile id s) with
          | f :: _ => Some (BatchFileItem.id f)
          | [] => None
          end)
  /\ (forall id,
        ConversionState.activeFileId s <> Some id ->
        ConversionState.activeFileId (removeFile id s) = ConversionState.activeFileId s)
  /\ (forall i,
        ConversionState.batchFiles (selectActive i s) = ConversionState.batchFiles s
        /\ (ConversionState.activeFileId (selectActive i s) = ConversionState.activeFileId s
            \/ exists f, In f (ConversionState.batchFiles s)
                 /\ ConversionState.activeFileId (selectActive i s)
                    = Some (BatchFileItem.id f))).
Proof.
  intros Hv. split; [|split; [|split; [|split]]].
  - intros s' Hstep. inversion Hstep; subst; clear Hstep.
    + exact Hv.
    + unfold handleFiles. destruct files; [exact Hv | apply processFiles_activeValid, Hv].
    + apply removeFile_activeValid, Hv.
    + apply selectActive_activeValid, Hv.
    + exact Hv.
    + exact Hv.
    + exact Hv.
    + exact Hv.
    + destruct (handleConvert_activeValid world s Hv) as [_ Hh].
      rewrite Forall_forall in Hh. apply (Hh s'). assumption.
  - intros ids files first rest Hnone Hq.
    destruct (processFiles_queue ids files s) as [Hq' Ha]. rewrite Hq' in Hq.
    apply app_inv_head in Hq. rewrite Ha, Hq, Hnone. reflexivity.
  - intros id Hact. unfold removeFile. unfold_setters.
    rewrite Hact, String.eqb_refl. reflexivity.
  - intros id Hact. unfold removeFile. unfold_setters.
    destruct (ConversionState.activeFileId s) as [a|]; [|reflexivity].
    destruct (String.eqb_spec id a) as [->|_]; [congruence | reflexivity].
  - intros i. unfold selectActive.
    destruct (nth_error _ i) as [file|] eqn:Hnth; unfold_setters.
    + split; [reflexivity|]. right. exists file.
      split; [eapply nth_error_In; exact Hnth | reflexivity].
    + split; [reflexivity | left; reflexivity].
Qed.

Lemma activeFileId_invariant_witness :
  let s := processFiles sampleIds [notesTxt; scanPdf] initialState in
  activeValid s
  /\ ConversionState.activeFileId s = Some "id0"
  /\ activeValid (removeFile "id0" s)
  /\ ConversionState.activeFileId (removeFile "id0" s) = Some "id1".
Proof.
  intros s.
  assert (Hv : activeValid s) by (left; reflexivity).
  split; [exact Hv|]. split; [reflexivity|]. split.
  - exact (proj1 (activeFileId_invariant s Hv) _ (step_removeFile "id0" s)).
  - exact (proj1 (proj2 (proj2 (activeFileId_invariant s Hv))) "id0" eq_refl).
Defined.

(** ** The batch loop *)

Lemma eligible_status f : eligible f = true <-> BatchFileItem.status f <> Success.
Proof.
  unfold eligible. destruct (BatchFileItem.status f); cbn; split; congruence.
Qed.

(** The calls of the loop need no assumption on the queue. *)
Lemma loop_calls world state items : forall r,
  Run.calls (fold_left (convertItem world state) items r)
  = Run.calls r ++ map (callFor state) (filter eligible items).
Proof.
  induction items as [|f rest IH]; intros r; cbn [fold_left filter map].
  - rewrite app_nil_r. reflexivity.
  - rewrite IH. unfold convertItem, eligible.
    destruct (ConversionStatus_eqb (BatchFileItem.status f) Success); cbn [negb];
      [reflexivity|].
    unfold awaitConvertContent. cbn [Run.calls Run.current Run.history setState].
    destruct (convertContent _ _ _ _); cbn [Run.calls setState map];
      rewrite <- app_assoc; reflexivity.
Qed.

(** One iteration on an eligible item, identities being distinct. *)
Lemma convertItem_eligible world state r before f after :
  ConversionState.batchFiles (Run.current r) = before ++ f :: after ->
  NoDup (queueIds (Run.current r)) ->
  eligible f = true ->
  let r' := convertItem world state r f in
  ConversionState.batchFiles (Run.current r')
  = before ++ settled (outcomeAt world state (length (Run.calls r)) f) f :: after
  /\ ConversionState.activeFileId (Run.current r') = Some (BatchFileItem.id f)
  /\ exists mid,
       Run.history r' = Run.current r' :: mid :: Run.history r
       /\ ConversionState.batchFiles mid = before ++ markProcessing f :: after.
Proof.
  intros Hq Hnd Hel. unfold convertItem.
  unfold eligible in Hel. apply negb_true_iff in Hel. rewrite Hel.
  unfold awaitConvertContent, outcomeAt, settled.
  cbn [Run.calls Run.current Run.history setState].
  pose proof (updateItem_at f markProcessing (Run.current r) before f after Hq eq_refl Hnd)
    as Hmid.
  set (mid := ConversionState.set_batchFiles (updateItem f markProcessing (Run.current r))
                (ConversionState.set_activeFileId (Some (BatchFileItem.id f)) (Run.current r))).
  assert (Hmq : ConversionState.batchFiles mid = before ++ markProcessing f :: after)
    by exact Hmid.
  assert (Hmnd : NoDup (queueIds mid)).
  { unfold queueIds. rewrite Hmq. unfold queueIds in Hnd. rewrite Hq in Hnd.
    rewrite map_app in *. exact Hnd. }
  destruct (convertContent _ _ _ _) as [message|result];
    cbn [Run.calls Run.current Run.history setState]; unfold_setters.
  - rewrite (updateItem_at f (markError message) mid before (markProcessing f) after
               Hmq eq_refl Hmnd).
    split; [reflexivity|]. split; [reflexivity|]. exists mid. split; [reflexivity | exact Hmq].
  - rewrite (updateItem_at f (markSuccess result) mid before (markProcessing f) after
               Hmq eq_refl Hmnd).
    split; [reflexivity|]. split; [reflexivity|]. exists mid. split; [reflexivity | exact Hmq].
Qed.

Lemma settled_id o f : BatchFileItem.id (settled o f) = BatchFileItem.id f.
Proof. destruct o; reflexivity. Qed.

Lemma settled_consistent o f :
  eligible f = true -> itemConsistent f ->
  itemConsistent (markProcessing f) /\ itemConsistent (settled o f).
Proof.
  intros Hel Hc. apply eligible_status in Hel.
  assert (Hres : BatchFileItem.result f = None).
  { unfold itemConsistent in Hc. destruct (BatchFileItem.status f); try apply Hc. congruence. }
  unfold itemConsistent. destruct o; unfold settled; unfold_marks; rewrite Hres;
    repeat split; discriminate.
Qed.

Lemma Forall_middle {A} (Q : A -> Prop) before x y after :
  Forall Q (before ++ x :: after) -> Q y -> Forall Q (before ++ y :: after).
Proof.
  intros H Hy. apply Forall_app in H as [Hb Ha]. apply Forall_app. split; [exact Hb|].
  inversion Ha; subst. constructor; assumption.
Qed.

(** The loop, from a run whose queue is [before ++ items], the items still
    to visit being as the handler saw them. *)
Lemma loop_result world state items : forall before r,
  ConversionState.batchFiles (Run.current r) = before ++ items ->
  NoDup (queueIds (Run.current r)) ->
  let r' := fold_left (convertItem world state) items r in
  ConversionState.batchFiles (Run.current r')
  = before ++ batchResult world state (length (Run.calls r)) items
  /\ (queueConsistent (Run.current r) -> Forall queueConsistent (Run.history r) ->
      queueConsistent (Run.current r') /\ Forall queueConsistent (Run.history r')).
Proof.
  induction items as [|f rest IH]; intros before r Hq Hnd; cbn [fold_left batchResult].
  - split; [exact Hq | auto].
  - destruct (eligible f) eqn:Hel.
    + destruct (convertItem_eligible world state r before f rest Hq Hnd Hel)
        as (Hq' & _ & mid & Hh & Hmid).
      set (o := outcomeAt world state (length (Run.calls r)) f) in *.
      set (r1 := convertItem world state r f) in *.
      assert (Hq1 : ConversionState.batchFiles (Run.current r1) = (before ++ [settled o f]) ++ rest)
        by (rewrite <- app_assoc; exact Hq').
      assert (Hnd1 : NoDup (queueIds (Run.current r1))).
      { unfold queueIds in *. rewrite Hq'. rewrite Hq in Hnd. rewrite map_app in *.
        cbn [map] in *. rewrite settled_id. exact Hnd. }
      assert (Hcalls : length (Run.calls r1) = S (length (Run.calls r))).
      { subst r1. pose proof (loop_calls world state [f] r) as Hc. cbn [fold_left filter] in Hc.
        rewrite Hel in Hc. rewrite Hc, length_app. cbn. lia. }
      destruct (IH (before ++ [settled o f]) r1 Hq1 Hnd1) as [Hres Hcons].
      rewrite Hcalls in Hres. rewrite <- app_assoc in Hres. split; [exact Hres|].
      intros Hc Hhist. apply Hcons.
      * unfold queueConsistent in *. rewrite Hq'. rewrite Hq in Hc.
        eapply Forall_middle; [exact Hc|].
        apply settled_consistent; [exact Hel|].
        apply Forall_app in Hc as [_ Hc]. inversion Hc; assumption.
      * rewrite Hh. unfold queueConsistent in *. rewrite Hq in Hc.
        assert (Hf : itemConsistent f) by (apply Forall_app in Hc as [_ Hc]; inversion Hc; assumption).
        constructor; [|constructor; [|exact Hhist]].
        -- rewrite Hq'. eapply Forall_middle; [exact Hc|].
           apply settled_consistent; assumption.
        -- rewrite Hmid. eapply Forall_middle; [exact Hc|].
           apply (settled_consistent o); assumption.
    + assert (Hskip : convertItem world state r f = r).
      { unfold convertItem. unfold eligible in Hel. apply negb_false_iff in Hel.
        rewrite Hel. reflexivity. }
      rewrite Hskip.
      assert (Hq1 : ConversionState.batchFiles (Run.current r) = (before ++ [f]) ++ rest)
        by (rewrite <- app_assoc; exact Hq).
      destruct (IH (before ++ [f]) r Hq1 Hnd) as [Hres Hcons].
      rewrite <- app_assoc in Hres. split; [exact Hres | exact Hcons].
Qed.

Lemma batchResult_length world state items : forall k,
  length (batchResult world state k items) = length items.
Proof.
  induction items as [|f rest IH]; intros k; cbn; [reflexivity|].
  destruct (eligible f); cbn; rewrite IH; reflexivity.
Qed.

(** The item at position [i] meets the call numbered by the eligible items
    before it. *)
Lemma batchResult_nth world state items : forall k i f,
  nth_error items i = Some f ->
  nth_error (batchResult world state k items) i
  = Some (if eligible f
          then settled (outcomeAt world state
                          (k + length (filter eligible (firstn i items))) f) f
          else f).
Proof.
  induction items as [|g rest IH]; intros k i f Hnth; [destruct i; discriminate|].
  destruct i as [|i]; cbn in Hnth.
  - injection Hnth as ->. cbn. rewrite Nat.add_0_r. destruct (eligible f); reflexivity.
  - cbn [batchResult firstn filter]. destruct (eligible g); cbn [nth_error length].
    + rewrite (IH (S k) i f Hnth). rewrite Nat.add_succ_r. reflexivity.
    + apply IH. exact Hnth.
Qed.

(** A run in file mode on a non-empty queue of distinct identities. *)
Lemma handleConvert_file world state :
  ConversionState.inputMode state = ModeFile ->
  ConversionState.batchFiles state <> [] ->
  NoDup (queueIds state) ->
  let r := handleConvert world state in
  ConversionState.batchFiles (Run.current r)
  = batchResult world state 0 (ConversionState.batchFiles state)
  /\ Run.calls r = map (callFor state) (filter eligible (ConversionState.batchFiles state))
  /\ ConversionState.status (Run.current r) = Idle
  /\ (queueConsistent state -> Forall queueConsistent (Run.history r)).
Proof.
  intros Hmode Hne Hnd. unfold handleConvert. rewrite Hmode.
  case_eq (ConversionState.batchFiles state); [intros E; contradiction | intros f0 rest Hq].
  rewrite <- Hq.
  set (r0 := setState (fun prev => ConversionState.set_error None
                         (ConversionState.set_status Processing prev)) (Run.start state)).
  destruct (loop_result world state (ConversionState.batchFiles state) [] r0 eq_refl Hnd)
    as [Hres Hcons].
  cbn [setState Run.current Run.calls Run.history]. unfold_setters.
  split; [exact Hres|]. split; [rewrite loop_calls; reflexivity|]. split; [reflexivity|].
  intros Hc.
  assert (H0 : queueConsistent (Run.current r0)) by exact Hc.
  destruct (Hcons H0 (Forall_cons _ H0 (Forall_nil _))) as [Hcur Hhist].
  constructor; [exact Hcur | exact Hhist].
Qed.

(** C2: in file mode, on a non-empty queue of distinct identities and
    whatever the conversion calls answer, a run calls [convertContent] once
    for every item the loop guard lets through, in queue order; the item at
    position [i] meets the outcome of its own call: on rejection it ends
    [Error] with the message of the rejection, on resolution it ends
    [Success] with the text returned, one failure stopping nothing; and the
    run ends with the overall status [Idle]. *)
Theorem handleConvert_batch (world : nat -> Env.t) (state : ConversionState.t) :
  ConversionState.inputMode state = ModeFile ->
  ConversionState.batchFiles state <> [] ->
  NoDup (queueIds state) ->
  let r := handleConvert world state in
  let queue := ConversionState.batchFiles state in
  Run.calls r = map (callFor state) (filter eligible queue)
  /\ length (ConversionState.batchFiles (Run.current r)) = length queue
  /\ (forall i f,
        nth_error queue i = Some f -> eligible f = true ->
        exists f',
          nth_error (ConversionState.batchFiles (Run.current r)) i = Some f'
          /\ BatchFileItem.id f' = BatchFileItem.id f
          /\ BatchFileItem.file f' = BatchFileItem.file f
          /\ nth_error (Run.calls r) (length (filter eligible (firstn i queue)))
             = Some (callFor state f)
          /\ match convertContent (world (length (filter eligible (firstn i queue))))
                     (InputFile (BatchFileItem.file f))
                     (ConversionState.targetFormat state)
                     (Some (ConversionState.additionalInstructions state)) with
             | inr text =>
                 BatchFileItem.status f' = Success /\ BatchFileItem.result f' = Some text
             | inl message =>
                 BatchFileItem.status f' = Error /\ BatchFileItem.error f' = Some message
             end)
  /\ ConversionState.status (Run.current r) = Idle.
Proof.
  intros Hmode Hne Hnd r queue.
  destruct (handleConvert_file world state Hmode Hne Hnd) as (Hres & Hcalls & Hidle & _).
  fold r in Hres, Hcalls, Hidle. fold queue in Hres, Hcalls.
  split; [exact Hcalls|]. split; [rewrite Hres; apply batchResult_length|].
  split; [|exact Hidle].
  intros i f Hnth Hel.
  exists (settled (outcomeAt world state (length (filter eligible (firstn i queue))) f) f).
  split; [|split; [|split; [|split]]].
  - rewrite Hres, (batchResult_nth world state queue 0 i f Hnth), Hel. reflexivity.
  - apply settled_id.
  - destruct (outcomeAt _ _ _ _); reflexivity.
  - rewrite Hcalls.
    rewrite <- (firstn_skipn i queue) at 1. rewrite filter_app, map_app.
    rewrite nth_error_app2 by (rewrite length_map; lia).
    rewrite length_map, Nat.sub_diag.
    assert (Hskip : skipn i queue = f :: skipn (S i) queue).
    { clear - Hnth. revert i Hnth. induction queue as [|g rest IH]; intros [|i] H;
        try discriminate; cbn in *; [congruence | apply IH; exact H]. }
    rewrite Hskip. cbn [filter]. rewrite Hel. reflexivity.
  - unfold outcomeAt. destruct (convertContent _ _ _ _); split; reflexivity.
Qed.

Lemma handleConvert_batch_witness :
  ConversionState.inputMode twoQueued = ModeFile
  /\ ConversionState.batchFiles twoQueued <> []
  /\ NoDup (queueIds twoQueued)
  /\ length (Run.calls (handleConvert firstRefused twoQueued)) = 2%nat
  /\ ConversionState.status (Run.current (handleConvert firstRefused twoQueued)) = Idle.
Proof.
  assert (H1 : ConversionState.inputMode twoQueued = ModeFile) by reflexivity.
  assert (H2 : ConversionState.batchFiles twoQueued <> []) by discriminate.
  assert (H3 : NoDup (queueIds twoQueued)).
  { repeat constructor; cbn; intuition discriminate. }
  split; [exact H1|]. split; [exact H2|]. split; [exact H3|].
  destruct (handleConvert_batch firstRefused twoQueued H1 H2 H3) as (Hcalls & _ & _ & Hidle).
  split; [rewrite Hcalls; reflexivity | exact Hidle].
Defined.

(** What the first run leaves and what a second run then does. *)
Example repeat_run_trace :
  map BatchFileItem.status (ConversionState.batchFiles afterFirstRun) = [Error; Success]
  /\ map BatchFileItem.error (ConversionState.batchFiles afterFirstRun)
     = [Some "quota exceeded"; None]
  /\ map BatchFileItem.result (ConversionState.batchFiles afterFirstRun)
     = [None; Some "converted"]
  /\ Run.calls (handleConvert (fun _ => answeringEnv "a,b" "again") afterFirstRun)
     = [(InputFile notesTxt, JSON, "")]
  /\ map BatchFileItem.status
       (ConversionState.batchFiles
          (Run.current (handleConvert (fun _ => answeringEnv "a,b" "again") afterFirstRun)))
     = [Success; Success].
Proof. vm_compute. repeat split. Qed.

(** C1, as stated, fails: [handleConvert] takes no retry request, and a
    repeat run converts a failed item again. *)
Lemma failed_item_reprocessed :
  exists f,
    In f (ConversionState.batchFiles afterFirstRun)
    /\ BatchFileItem.status f = Error
    /\ In (callFor afterFirstRun f)
          (Run.calls (handleConvert (fun _ => answeringEnv "a,b" "again") afterFirstRun))
    /\ exists f',
         In f' (ConversionState.batchFiles
                  (Run.current (handleConvert (fun _ => answeringEnv "a,b" "again")
                                  afterFirstRun)))
         /\ BatchFileItem.id f' = BatchFileItem.id f
         /\ BatchFileItem.status f' = Success.
Proof.
  exists (BatchFileItem.mk "id0" notesTxt Error None (Some "quota exceeded")).
  split; [left; reflexivity|]. split; [reflexivity|]. split; [left; reflexivity|].
  exists (BatchFileItem.mk "id0" notesTxt Success (Some "again") None).
  split; [left; reflexivity|]. split; reflexivity.
Qed.

(** C1, amended: a run skips exactly the items whose status is [Success]:
    it calls [convertContent] for none of them and leaves them as they
    are; every other item, failed ones included, is converted again, one
    call each in queue order. *)
Theorem handleConvert_skips_succeeded (world : nat -> Env.t) (state : ConversionState.t) :
  ConversionState.inputMode state = ModeFile ->
  ConversionState.batchFiles state <> [] ->
  NoDup (queueIds state) ->
  let r := handleConvert world state in
  let queue := ConversionState.batchFiles state in
  Run.calls r
  = map (callFor state)
        (filter (fun f => negb (ConversionStatus_eqb (BatchFileItem.status f) Success)) queue)
  /\ length (Run.calls r)
     = (length queue
        - length (filter (fun f => ConversionStatus_eqb (BatchFileItem.status f) Success) queue))%nat
  /\ (forall i f,
        nth_error queue i = Some f -> BatchFileItem.status f = Success ->
        nth_error (ConversionState.batchFiles (Run.current r)) i = Some f)
  /\ (forall f,
        In f queue -> BatchFileItem.status f <> Success ->
        In (callFor state f) (Run.calls r)).
Proof.
  intros Hmode Hne Hnd r queue.
  destruct (handleConvert_file world state Hmode Hne Hnd) as (Hres & Hcalls & _ & _).
  fold r in Hres, Hcalls. fold queue in Hres, Hcalls.
  split; [exact Hcalls|]. split; [|split].
  - rewrite Hcalls, length_map.
    pose proof (filter_length
                  (fun f => ConversionStatus_eqb (BatchFileItem.status f) Success) queue) as H.
    unfold eligible. cbv beta in H. lia.
  - intros i f Hnth Hst.
    rewrite Hres, (batchResult_nth world state queue 0 i f Hnth).
    unfold eligible. rewrite Hst. reflexivity.
  - intros f Hin Hst. rewrite Hcalls. apply in_map. apply filter_In.
    split; [exact Hin | apply eligible_status; exact Hst].
Qed.

Lemma handleConvert_skips_succeeded_witness :
  ConversionState.inputMode afterFirstRun = ModeFile
  /\ ConversionState.batchFiles afterFirstRun <> []
  /\ NoDup (queueIds afterFirstRun)
  /\ length (Run.calls (handleConvert firstRefused afterFirstRun)) = 1%nat.
Proof.
  assert (H1 : ConversionState.inputMode afterFirstRun = ModeFile) by reflexivity.
  assert (H2 : ConversionState.batchFiles afterFirstRun <> []) by discriminate.
  assert (H3 : NoDup (queueIds afterFirstRun)).
  { repeat constructor; cbn; intuition discriminate. }
  split; [exact H1|]. split; [exact H2|]. split; [exact H3|].
  destruct (handleConvert_skips_succeeded firstRefused afterFirstRun H1 H2 H3)
    as (_ & Hlen & _).
  rewrite Hlen. reflexivity.
Defined.

Lemma itemConsistent_spec f :
  itemConsistent f <->
  (BatchFileItem.result f <> None <-> BatchFileItem.status f = Success)
  /\ (BatchFileItem.error f <> None <-> BatchFileItem.status f = Error).
Proof.
  unfold itemConsistent.
  destruct (BatchFileItem.status f), (BatchFileItem.result f), (BatchFileItem.error f);
    intuition congruence.
Qed.

(** C7: from a queue of distinct identities whose items are consistent, in
    every state a run of [handleConvert] sets, every item has its result set
    exactly when it is [Success] and its error set exactly when it is
    [Error]; so never both, and neither while [Idle] or [Processing]. *)
Theorem items_consistent_throughout (world : nat -> Env.t) (state : ConversionState.t) :
  NoDup (queueIds state) ->
  queueConsistent state ->
  forall s, In s (Run.history (handleConvert world state)) ->
  forall f, In f (ConversionState.batchFiles s) ->
    (BatchFileItem.result f <> None <-> BatchFileItem.status f = Success)
    /\ (BatchFileItem.error f <> None <-> BatchFileItem.status f = Error)
    /\ ~ (BatchFileItem.result f <> None /\ BatchFileItem.error f <> None)
    /\ (BatchFileItem.status f = Idle \/ BatchFileItem.status f = Processing ->
        BatchFileItem.result f = None /\ BatchFileItem.error f = None).
Proof.
  intros Hnd Hc.
  assert (Hall : Forall queueConsistent (Run.history (handleConvert world state))).
  { destruct (ConversionState.inputMode state) eqn:Hmode.
    - unfold handleConvert. rewrite Hmode. destruct (String.eqb _ _).
      + repeat constructor. exact Hc.
      + unfold awaitConvertContent. cbn [Run.calls Run.current Run.history setState Run.start].
        destruct (convertContent _ _ _ _); repeat constructor; exact Hc.
    - destruct (ConversionState.batchFiles state) as [|f0 rest] eqn:Hq.
      + unfold handleConvert. rewrite Hmode, Hq. repeat constructor.
        unfold queueConsistent. cbn. rewrite Hq. constructor.
      + apply handleConvert_file; [exact Hmode | rewrite Hq; discriminate | exact Hnd | exact Hc]. }
  intros s Hs f Hf. rewrite Forall_forall in Hall. specialize (Hall s Hs).
  unfold queueConsistent in Hall. rewrite Forall_forall in Hall. specialize (Hall f Hf).
  pose proof (proj1 (itemConsistent_spec f) Hall) as [Hr He].
  split; [exact Hr|]. split; [exact He|]. split.
  - intros [H1 H2]. apply Hr in H1. apply He in H2. congruence.
  - unfold itemConsistent in Hall. intros [H|H]; rewrite H in Hall; exact Hall.
Qed.

Lemma items_consistent_throughout_witness :
  NoDup (queueIds twoQueued)
  /\ queueConsistent twoQueued
  /\ Forall (fun s => forall f, In f (ConversionState.batchFiles s) ->
                ~ (BatchFileItem.result f <> None /\ BatchFileItem.error f <> None))
       (Run.history (handleConvert firstRefused twoQueued)).
Proof.
  assert (H1 : NoDup (queueIds twoQueued)).
  { repeat constructor; cbn; intuition discriminate. }
  assert (H2 : queueConsistent twoQueued).
  { repeat constructor. }
  split; [exact H1|]. split; [exact H2|].
  apply Forall_forall. intros s Hs f Hf.
  exact (proj1 (proj2 (proj2 (items_consistent_throughout firstRefused twoQueued H1 H2
                                s Hs f Hf)))).
Defined.

Lemma convertContent_nonempty env input targetFormat instructions text :
  convertContent env input targetFormat instructions = inr text -> text <> "".
Proof.
  unfold convertContent, convertContentTry.
  destruct (buildRequest env input targetFormat instructions) as [e|request];
    cbn [await]; [discriminate|].
  destruct (Env.generateContent env request) as [e|response]; cbn [await resolve];
    [discriminate|].
  intros H. injection H as <-. apply orStr_nonempty. discriminate.
Qed.

Lemma handleConvert_succeededNonEmpty world state :
  succeededNonEmpty state ->
  runKeeps succeededNonEmpty (handleConvert world state).
Proof.
  intros Hs. apply handleConvert_keeps; try exact Hs.
  - intros v prev H. exact H.
  - intros v prev H. exact H.
  - intros v prev H. exact H.
  - intros fileItem prev _ H f Hf Hst. unfold succeededNonEmpty in H.
    unfold_setters. unfold updateItem in Hf. apply in_map_iff in Hf as (g & Hg & Hin).
    destruct (String.eqb _ _); subst f; [discriminate Hst | apply (H g Hin Hst)].
  - intros fileItem k result prev _ Hout H f Hf Hst. unfold succeededNonEmpty in H.
    unfold_setters. unfold updateItem in Hf. apply in_map_iff in Hf as (g & Hg & Hin).
    destruct (String.eqb _ _); subst f; [|apply (H g Hin Hst)].
    exists result. split; [reflexivity|]. eapply convertContent_nonempty. exact Hout.
  - intros fileItem message prev _ H f Hf Hst. unfold succeededNonEmpty in H.
    unfold_setters. unfold updateItem in Hf. apply in_map_iff in Hf as (g & Hg & Hin).
    destruct (String.eqb _ _); subst f; [discriminate Hst | apply (H g Hin Hst)].
Qed.

(** C10: [convertContent] never resolves with the empty string. When the
    model call resolves with absent or empty text, [convertContent]
    resolves with the placeholder in its place; any other text is returned
    as it is. Hence, from a queue whose succeeded items carry non-empty
    results, every state a run sets is such a queue again. *)
Theorem convertContent_never_empty (env : Env.t) (input : ConvertInput)
  (targetFormat : TargetFormat) (instructions : option string) :
  noContentPlaceholder = "未生成任何内容。"
  /\ (forall text,
        convertContent env input targetFormat instructions = inr text -> text <> "")
  /\ (forall request response,
        buildRequest env input targetFormat instructions = inr request ->
        Env.generateContent env request = inr response ->
        Response.text response = None \/ Response.text response = Some "" ->
        convertContent env input targetFormat instructions = inr noContentPlaceholder)
  /\ (forall request response text,
        buildRequest env input targetFormat instructions = inr request ->
        Env.generateContent env request = inr response ->
        Response.text response = Some text -> text <> "" ->
        convertContent env input targetFormat instructions = inr text)
  /\ (forall world state,
        succeededNonEmpty state ->
        forall s, In s (Run.history (handleConvert world state)) -> succeededNonEmpty s).
Proof.
  split; [reflexivity|]. split; [|split; [|split]].
  - intros text. apply convertContent_nonempty.
  - intros request response Hreq Hgen Htext.
    rewrite (convertContent_after_request _ _ _ _ _ Hreq), Hgen.
    destruct Htext as [-> | ->]; reflexivity.
  - intros request response text Hreq Hgen Htext Hne.
    rewrite (convertContent_after_request _ _ _ _ _ Hreq), Hgen, Htext.
    unfold Js.orStr. apply String.eqb_neq in Hne. rewrite Hne. reflexivity.
  - intros world state Hs s Hin.
    destruct (handleConvert_succeededNonEmpty world state Hs) as [_ Hh].
    rewrite Forall_forall in Hh. apply Hh. exact Hin.
Qed.

Lemma convertContent_never_empty_witness :
  convertContent (answeringEnv "a,b" "") (InputFile notesTxt) CSV (Some "")
  = inr "未生成任何内容。"
  /\ convertContent idleEnv (InputText "a,b") CSV None = inr "未生成任何内容。".
Proof.
  split.
  - eapply (proj1 (proj2 (proj2 (convertContent_never_empty (answeringEnv "a,b" "")
                                   (InputFile notesTxt) CSV (Some ""))))).
    + reflexivity.
    + reflexivity.
    + right. reflexivity.
  - eapply (proj1 (proj2 (proj2 (convertContent_never_empty idleEnv (InputText "a,b") CSV
                                   None)))).
    + reflexivity.
    + reflexivity.
    + left. reflexivity.
Defined.


(** ** The conversion service: rejections, instructions, types *)

Lemma convertContentCatch_nonempty error : convertContentCatch error <> "".
Proof.
  unfold convertContentCatch.
  destruct (messageIncludes error "Rpc failed" || Js.includes (JsError.toString error) "413");
    [discriminate|].
  destruct (messageIncludes error "API_KEY"); [discriminate|].
  apply orStr_nonempty. discriminate.
Qed.

(** X1: when [convertContent] rejects, its message is never empty and
    comes from the thrown value: the transport message when that value's
    message mentions [Rpc failed] or its text mentions [413], whatever else
    it mentions; otherwise the credential message when its message mentions
    [API_KEY]; otherwise its own message, verbatim, or the fixed fallback
    when it has none. *)
Theorem convertContent_rejection (env : Env.t) (input : ConvertInput)
  (targetFormat : TargetFormat) (instructions : option string) (message : string) :
  convertContent env input targetFormat instructions = inl message ->
  message <> ""
  /\ exists error,
       convertContentTry env input targetFormat instructions = inl error
       /\ (messageIncludes error "Rpc failed" = true
           \/ Js.includes (JsError.toString error) "413" = true ->
           message = transportMessage)
       /\ (messageIncludes error "Rpc failed" = false ->
           Js.includes (JsError.toString error) "413" = false ->
           (messageIncludes error "API_KEY" = true -> message = apiKeyMessage)
           /\ (messageIncludes error "API_KEY" = false ->
               forall m, JsError.message error = Some m -> m <> "" -> message = m)
           /\ (messageIncludes error "API_KEY" = false ->
               JsError.message error = None \/ JsError.message error = Some "" ->
               message = fallbackMessage)).
Proof.
  unfold convertContent.
  destruct (convertContentTry env input targetFormat instructions) as [error|text];
    [|discriminate].
  intros H. injection H as <-. split; [apply convertContentCatch_nonempty|].
  exists error. split; [reflexivity|]. unfold convertContentCatch. split.
  - intros [H|H]; rewrite H; [reflexivity | rewrite orb_true_r; reflexivity].
  - intros H1 H2. rewrite H1, H2. cbn [orb]. split; [|split].
    + intros H3. rewrite H3. reflexivity.
    + intros H3 m Hm Hne. rewrite H3, Hm. unfold Js.orStr.
      apply String.eqb_neq in Hne. rewrite Hne. reflexivity.
    + intros H3 [Hm|Hm]; rewrite H3, Hm; reflexivity.
Qed.

Lemma convertContent_rejection_witness :
  convertContent (refusingEnv "a,b" "quota exceeded") (InputText "a,b") CSV None
  = inl "quota exceeded"
  /\ "quota exceeded" <> "".
Proof.
  assert (H : convertContent (refusingEnv "a,b" "quota exceeded") (InputText "a,b") CSV None
              = inl "quota exceeded") by reflexivity.
  split; [exact H|].
  exact (proj1 (convertContent_rejection _ _ _ _ _ H)).
Defined.

Lemma trim_nonempty_source i : Js.trim i <> "" -> i <> "".
Proof. intros H E. subst i. apply H. reflexivity. Qed.

Lemma givenInstructions_blank i : Js.trim i = "" -> givenInstructions (Some i) = None.
Proof.
  intros H. unfold givenInstructions. rewrite H. cbn. rewrite andb_false_r. reflexivity.
Qed.

Lemma givenInstructions_given i : Js.trim i <> "" -> givenInstructions (Some i) = Some i.
Proof.
  intros H. unfold givenInstructions.
  pose proof (trim_nonempty_source i H) as Hi. apply String.eqb_neq in Hi. rewrite Hi.
  destruct (Js.trim i) as [|c r]; [contradiction | reflexivity].
Qed.

(** X2: instructions that are empty or trim to nothing count as no
    instructions: the request is the one built without any, and so is the
    outcome of the conversion. *)
Theorem blank_instructions_ignored (env : Env.t) (input : ConvertInput)
  (targetFormat : TargetFormat) (instructions : string) :
  Js.trim instructions = "" ->
  buildRequest env input targetFormat (Some instructions)
  = buildRequest env input targetFormat None
  /\ convertContent env input targetFormat (Some instructions)
     = convertContent env input targetFormat None.
Proof.
  intros H.
  assert (Hreq : buildRequest env input targetFormat (Some instructions)
                 = buildRequest env input targetFormat None).
  { unfold buildRequest, withInstructions. rewrite (givenInstructions_blank _ H). reflexivity. }
  split; [exact Hreq|]. unfold convertContent, convertContentTry. rewrite Hreq. reflexivity.
Qed.

Lemma blank_instructions_ignored_witness :
  Js.trim ("  " ++ nl) = ""
  /\ buildRequest idleEnv (InputText "a,b") CSV (Some ("  " ++ nl)%string)
     = buildRequest idleEnv (InputText "a,b") CSV None.
Proof.
  assert (H : Js.trim ("  " ++ nl) = "") by reflexivity.
  split; [exact H|].
  exact (proj1 (blank_instructions_ignored idleEnv (InputText "a,b") CSV _ H)).
Defined.

(** X3: with instructions that do not trim to nothing, the request always
    has two parts and carries the prompt once and the instructions once,
    verbatim, after the heading: pasted text and textual files send the
    prompt part and then a part of heading and instructions; any other file
    sends its inline data and then one text part of prompt, heading and
    instructions. Pasted text never fails before the model call. *)
Theorem request_with_instructions (env : Env.t) (targetFormat : TargetFormat)
  (instructions : string) :
  Js.trim instructions <> "" ->
  (forall text,
      exists request,
        buildRequest env (InputText text) targetFormat (Some instructions) = inr request
        /\ Request.parts request =
           [TextPart (textPrompt targetFormat text);
            TextPart (instructionsHeading ++ instructions)%string])
  /\ (forall file textContent,
        isTextFile file = true -> Env.readAsText env file = inr textContent ->
        exists request,
          buildRequest env (InputFile file) targetFormat (Some instructions) = inr request
          /\ Request.parts request =
             [TextPart (textFilePrompt targetFormat file textContent);
              TextPart (instructionsHeading ++ instructions)%string])
  /\ (forall file dataUrl,
        isTextFile file = false ->
        Env.readAsDataURL env file = inr (Some dataUrl) -> dataUrl <> "" ->
        exists request,
          buildRequest env (InputFile file) targetFormat (Some instructions) = inr request
          /\ Request.parts request =
             [InlineDataPart (InlineData.mk (nth_error (Js.split "," dataUrl) 1)
                                            (getMimeType file));
              TextPart (binaryPrompt targetFormat ++ instructionsHeading
                        ++ instructions)%string]).
Proof.
  intros Hi. pose proof (givenInstructions_given _ Hi) as Hg.
  split; [|split].
  - intros text. eexists. split.
    + unfold buildRequest, inputParts, withInstructions. cbn [await resolve].
      rewrite Hg. cbn [isSingleBinaryPart hasInlineData app]. reflexivity.
    + cbn [Request.parts]. unfold textPrompt, instructionsHeading.
      repeat rewrite append_assoc. reflexivity.
  - intros file textContent Htext Hread. eexists. split.
    + unfold buildRequest, inputParts, readTextFile, withInstructions.
      rewrite Htext, Hread. cbn [await resolve].
      rewrite Hg. cbn [isSingleBinaryPart hasInlineData app]. reflexivity.
    + cbn [Request.parts]. unfold textFilePrompt, instructionsHeading.
      repeat rewrite append_assoc. reflexivity.
  - intros file dataUrl Hbin Hread Hne. apply String.eqb_neq in Hne. eexists. split.
    + unfold buildRequest, inputParts, fileToGenerativePart, withInstructions.
      rewrite Hbin, Hread. cbn [await resolve]. rewrite Hne. cbn [await resolve].
      rewrite Hg. cbn [isSingleBinaryPart hasInlineData app]. reflexivity.
    + cbn [Request.parts]. unfold binaryPrompt, instructionsHeading.
      repeat rewrite append_assoc. reflexivity.
Qed.

Lemma request_with_instructions_witness :
  Js.trim "keep tables" <> ""
  /\ exists request,
       buildRequest idleEnv (InputText "a,b") CSV (Some "keep tables") = inr request
       /\ length (Request.parts request) = 2%nat.
Proof.
  assert (H : Js.trim "keep tables" <> "") by discriminate.
  split; [exact H|].
  destruct (proj1 (request_with_instructions idleEnv CSV "keep tables" H) "a,b")
    as (request & Hreq & Hparts).
  exists request. split; [exact Hreq | rewrite Hparts; reflexivity].
Defined.

(** X4: a file that is not textual and whose data URL read ends with no
    result (or an empty one) makes [convertContent] reject with the fixed
    message of [fileToGenerativePart]; a read that ends in an error event
    makes it reject as the [catch] block classifies that event. Neither
    reaches the model: the outcome is the same whatever the model would
    answer. *)
Theorem unreadable_file_rejected (env : Env.t) (file : File.t)
  (targetFormat : TargetFormat) (instructions : option string) :
  forall generate : Request.t -> Promise Response.t,
  let env' := Env.mk (Env.readAsText env) (Env.readAsDataURL env) generate in
  (isTextFile file = false ->
   Env.readAsDataURL env file = inr None \/ Env.readAsDataURL env file = inr (Some "") ->
   convertContent env' (InputFile file) targetFormat instructions = inl "无法读取文件")
  /\ (isTextFile file = false ->
      forall event, Env.readAsDataURL env file = inl event ->
      convertContent env' (InputFile file) targetFormat instructions
      = inl (convertContentCatch event))
  /\ (isTextFile file = true ->
      forall event, Env.readAsText env file = inl event ->
      convertContent env' (InputFile file) targetFormat instructions
      = inl (convertContentCatch event)).
Proof.
  intros generate env'. subst env'.
  unfold convertContent, convertContentTry, buildRequest, inputParts, readTextFile,
    fileToGenerativePart. cbn [Env.readAsText Env.readAsDataURL Env.generateContent].
  split; [|split].
  - intros Hbin [H|H]; rewrite Hbin, H; reflexivity.
  - intros Hbin event H. rewrite Hbin, H. reflexivity.
  - intros Htext event H. rewrite Htext, H. reflexivity.
Qed.

(** X5: the content type [getMimeType] gives is never empty and never the
    generic [application/octet-stream]. *)
Theorem getMimeType_never_generic (file : File.t) :
  getMimeType file <> "" /\ getMimeType file <> "application/octet-stream".
Proof.
  unfold getMimeType.
  destruct (String.eqb_spec (File.type file) "") as [E1|N1];
    destruct (String.eqb_spec (File.type file) "application/octet-stream") as [E2|N2];
    cbn [negb andb]; try (split; assumption);
    repeat match goal with
           | |- context [if ?b then _ else _] => destruct b
           end; split; discriminate.
Qed.

(** X6: the extension can make a file textual against its declared type,
    and the lack of a usable declared type makes it textual by default: a
    file whose lower-cased extension is one of [textExts] is textual
    whatever type it declares, and a file whose declared type is empty or
    [application/octet-stream] is textual unless its extension is one of the
    eight of [binaryExts]. *)
Theorem isTextFile_by_extension (file : File.t) :
  (forall ext, extensionOf file = Some ext -> In ext textExts -> isTextFile file = true)
  /\ (File.type file = "" \/ File.type file = "application/octet-stream" ->
      (forall ext, In ext binaryExts -> extensionOf file <> Some ext) ->
      isTextFile file = true).
Proof.
  split.
  - intros ext Hext Hin. unfold isTextFile.
    destruct (existsb _ textMimes); [reflexivity|]. rewrite Hext.
    cbn in Hin. repeat (destruct Hin as [<-|Hin]; [reflexivity|]). contradiction.
  - intros Htype Hbin. unfold isTextFile.
    assert (Hmime : getMimeType file =
              let ext := extensionOf file in
              if extIs ext "pdf" then "application/pdf"
              else if extIs ext "csv" then "text/csv"
              else if extIs ext "json" then "application/json"
              else if extIs ext "xml" then "text/xml"
              else if extIs ext "html" then "text/html"
              else if extIs ext "md" then "text/markdown"
              else if extIs ext "txt" then "text/plain"
              else if extIs ext "doc" || extIs ext "docx"
                then "application/vnd.openxmlformats-officedocument.wordprocessingml.document"
              else if extIs ext "png" then "image/png"
              else if extIs ext "jpg" || extIs ext "jpeg" then "image/jpeg"
              else if extIs ext "webp" then "image/webp"
              else if extIs ext "heic" then "image/heic"
              else "text/plain").
    { unfold getMimeType. destruct Htype as [-> | ->]; reflexivity. }
    rewrite Hmime. clear Hmime. cbv zeta.
    destruct (extensionOf file) as [ext|]; [|reflexivity].
    assert (Hno : forall e, In e binaryExts -> ext <> e).
    { intros e He E. apply (Hbin e He). congruence. }
    unfold extIs.
    repeat match goal with
    | |- context [String.eqb ext ?lit] =>
        destruct (String.eqb_spec ext lit);
        [ first [ reflexivity
                | exfalso; eapply Hno; [|eassumption]; cbn; tauto ]
        | cbn [orb] ]
    end.
    reflexivity.
Qed.

Lemma isTextFile_by_extension_witness :
  (File.type setupExe = "" \/ File.type setupExe = "application/octet-stream")
  /\ isTextFile setupExe = true.
Proof.
  assert (H : File.type setupExe = "" \/ File.type setupExe = "application/octet-stream")
    by (left; reflexivity).
  split; [exact H|].
  apply (proj2 (isTextFile_by_extension setupExe) H).
  intros ext Hin E. injection E as <-. cbn in Hin. intuition discriminate.
Defined.

Lemma TargetFormat_eqb_eq a b : TargetFormat_eqb a b = true <-> a = b.
Proof.
  split; [|intros ->; destruct b; reflexivity].
  destruct a, b; intros H; try reflexivity; vm_compute in H; discriminate H.
Qed.

Lemma append_empty_r (s : string) : (s ++ "")%string = s.
Proof. induction s as [|c r IH]; cbn; [reflexivity | rewrite IH; reflexivity]. Qed.

(** X7: whenever a request is built, it names the model
    [gemini-2.5-flash], asks for a JSON response exactly when the target is
    JSON, and its system instruction is the base instruction alone unless
    the target is DOCX; for DOCX the Word paragraph follows, and after it
    the PDF paragraph exactly when the input is a non-textual file of type
    [application/pdf]. *)
Theorem request_config (env : Env.t) (input : ConvertInput)
  (targetFormat : TargetFormat) (instructions : option string) (request : Request.t) :
  buildRequest env input targetFormat instructions = inr request ->
  let pdfInput :=
    match input with
    | InputFile file =>
        negb (isTextFile file) && String.eqb (getMimeType file) "application/pdf"
    | InputText _ => false
    end in
  Request.model request = "gemini-2.5-flash"
  /\ (Config.responseMimeType (Request.config request) = Some "application/json"
      <-> targetFormat = JSON)
  /\ (Config.responseMimeType (Request.config request) = None <-> targetFormat <> JSON)
  /\ Config.systemInstruction (Request.config request)
     = (baseSystemInstruction targetFormat
        ++ (if TargetFormat_eqb targetFormat DOCX
            then docxSystemInstruction ++ (if pdfInput then pdfSystemInstruction else "")
            else ""))%string
  /\ (TargetFormat_eqb targetFormat DOCX = true <-> targetFormat = DOCX).
Proof.
  intros Hreq pdfInput.
  assert (Hshape : exists parts,
             request = Request.mk modelId parts (configFor targetFormat pdfInput)).
  { unfold buildRequest, inputParts, readTextFile, fileToGenerativePart in Hreq.
    subst pdfInput. destruct input as [text|file].
    - cbn in Hreq. injection Hreq as <-. eexists. reflexivity.
    - destruct (isTextFile file).
      + destruct (Env.readAsText env file); cbn in Hreq; [discriminate|].
        injection Hreq as <-. eexists. reflexivity.
      + destruct (Env.readAsDataURL env file) as [e|[result|]]; cbn in Hreq;
          try discriminate.
        destruct (String.eqb result ""); cbn in Hreq; [discriminate|].
        injection Hreq as <-. eexists. reflexivity. }
  destruct Hshape as (parts & ->). cbn [Request.model Request.config].
  unfold configFor, systemInstructionFor. cbn [Config.responseMimeType Config.systemInstruction].
  split; [reflexivity|]. split; [|split; [|split]].
  - rewrite <- TargetFormat_eqb_eq. destruct (TargetFormat_eqb targetFormat JSON);
      split; congruence.
  - destruct (TargetFormat_eqb targetFormat JSON) eqn:E.
    + apply TargetFormat_eqb_eq in E. split; congruence.
    + split; [|reflexivity]. intros _ H. apply TargetFormat_eqb_eq in H. congruence.
  - destruct (TargetFormat_eqb targetFormat DOCX); [|rewrite append_empty_r; reflexivity].
    destruct pdfInput; [rewrite append_assoc | rewrite append_empty_r]; reflexivity.
  - apply TargetFormat_eqb_eq.
Qed.

Lemma request_config_witness :
  exists request,
    buildRequest (answeringEnv "a,b" "ok") (InputFile scanPdf) DOCX None = inr request
    /\ Config.systemInstruction (Request.config request)
       = (baseSystemInstruction DOCX ++ docxSystemInstruction ++ pdfSystemInstruction)%string.
Proof.
  eexists. split; [reflexivity|].
  exact (proj1 (proj2 (proj2 (proj2
           (request_config (answeringEnv "a,b" "ok") (InputFile scanPdf) DOCX None _
              eq_refl))))).
Defined.

Lemma unreadable_file_rejected_witness :
  isTextFile scanPdf = false
  /\ convertContent idleEnv (InputFile scanPdf) CSV None = inl "无法读取文件".
Proof.
  assert (H : isTextFile scanPdf = false) by reflexivity.
  split; [exact H|].
  exact (proj1 (unreadable_file_rejected idleEnv scanPdf CSV None
                  (Env.generateContent idleEnv)) H (or_introl eq_refl)).
Defined.

(** ** Runs of [handleConvert]: text mode, what a run leaves alone *)

Lemma convertContent_message_nonempty env input targetFormat instructions message :
  convertContent env input targetFormat instructions = inl message -> message <> "".
Proof.
  unfold convertContent.
  destruct (convertContentTry env input targetFormat instructions); [|discriminate].
  intros H. injection H as <-. apply convertContentCatch_nonempty.
Qed.

(** X8: in text mode with input that does not trim to nothing, a run makes
    exactly one conversion call, on the input text as typed, and leaves the
    queue and the selection alone. If the call resolves, the run ends
    [Success] with the text as the result shown and no error; if it
    rejects, the run ends [Error] with the message of the rejection,
    verbatim and never empty, and the earlier result kept. *)
Theorem handleConvert_text (world : nat -> Env.t) (state : ConversionState.t) :
  ConversionState.inputMode state = ModeText ->
  Js.trim (ConversionState.inputText state) <> "" ->
  let r := handleConvert world state in
  Run.calls r = [(InputText (ConversionState.inputText state),
                  ConversionState.targetFormat state,
                  ConversionState.additionalInstructions state)]
  /\ ConversionState.batchFiles (Run.current r) = ConversionState.batchFiles state
  /\ ConversionState.activeFileId (Run.current r) = ConversionState.activeFileId state
  /\ match convertContent (world 0%nat) (InputText (ConversionState.inputText state))
             (ConversionState.targetFormat state)
             (Some (ConversionState.additionalInstructions state)) with
     | inr text =>
         ConversionState.status (Run.current r) = Success
         /\ ConversionState.textResult (Run.current r) = text
         /\ getCurrentResult (Run.current r) = text
         /\ text <> ""
         /\ ConversionState.error (Run.current r) = None
     | inl message =>
         ConversionState.status (Run.current r) = Error
         /\ ConversionState.error (Run.current r) = Some message
         /\ message <> ""
         /\ ConversionState.textResult (Run.current r) = ConversionState.textResult state
     end.
Proof.
  intros Hmode Htrim r. subst r. unfold handleConvert. rewrite Hmode.
  apply String.eqb_neq in Htrim. rewrite Htrim.
  unfold awaitConvertContent. cbn [Run.calls Run.current Run.history setState Run.start length].
  destruct (convertContent _ _ _ _) as [message|text] eqn:Hout;
    cbn [Run.calls Run.current Run.history setState app]; unfold getCurrentResult;
    unfold_setters; rewrite ?Hmode.
  - pose proof (convertContent_message_nonempty _ _ _ _ _ Hout) as Hne.
    repeat split; try assumption.
    unfold Js.orStr. apply String.eqb_neq in Hne. rewrite Hne. reflexivity.
  - pose proof (convertContent_nonempty _ _ _ _ _ Hout) as Hne.
    repeat split; assumption.
Qed.

Lemma handleConvert_text_witness :
  let typed := setInputText "a,b" initialState in
  ConversionState.inputMode typed = ModeText
  /\ Js.trim (ConversionState.inputText typed) <> ""
  /\ length (Run.calls (handleConvert (fun _ => answeringEnv "" "a;b") typed)) = 1%nat.
Proof.
  intros typed.
  assert (H1 : ConversionState.inputMode typed = ModeText) by reflexivity.
  assert (H2 : Js.trim (ConversionState.inputText typed) <> "") by discriminate.
  split; [exact H1|]. split; [exact H2|].
  rewrite (proj1 (handleConvert_text (fun _ => answeringEnv "" "a;b") typed H1 H2)).
  reflexivity.
Defined.

Lemma updateItem_files fileItem change prev :
  (forall f, BatchFileItem.file (change f) = BatchFileItem.file f) ->
  map BatchFileItem.file (updateItem fileItem change prev)
  = map BatchFileItem.file (ConversionState.batchFiles prev).
Proof.
  intros Hfile. unfold updateItem. rewrite map_map. apply map_ext.
  intros f. destruct (String.eqb _ _); [apply Hfile | reflexivity].
Qed.

Lemma handleConvert_sameQueueAndInputs world state :
  runKeeps (sameQueueAndInputs state) (handleConvert world state).
Proof.
  apply handleConvert_keeps.
  - intros v prev H. exact H.
  - intros v prev H. exact H.
  - intros v prev H. exact H.
  - intros fileItem prev _ (H1 & H2 & H). unfold sameQueueAndInputs. unfold_setters.
    rewrite updateItem_files by reflexivity.
    pose proof (updateItem_ids fileItem markProcessing prev (fun _ => eq_refl)) as Hi.
    unfold queueIds in Hi. rewrite Hi. auto.
  - intros fileItem k result prev _ _ (H1 & H2 & H). unfold sameQueueAndInputs. unfold_setters.
    rewrite updateItem_files by reflexivity.
    pose proof (updateItem_ids fileItem (markSuccess result) prev (fun _ => eq_refl)) as Hi.
    unfold queueIds in Hi. rewrite Hi. auto.
  - intros fileItem message prev _ (H1 & H2 & H). unfold sameQueueAndInputs. unfold_setters.
    rewrite updateItem_files by reflexivity.
    pose proof (updateItem_ids fileItem (markError message) prev (fun _ => eq_refl)) as Hi.
    unfold queueIds in Hi. rewrite Hi. auto.
  - repeat split.
Qed.

(** X9: a run of [handleConvert] never adds, removes, reorders or replaces
    a queued file: in every state it sets, the identities and the files of
    the queue are those it started from, in the same order, and the input
    mode, input text, target format, instructions and file name are
    untouched. *)
Theorem run_keeps_queue_and_inputs (world : nat -> Env.t) (state s : ConversionState.t) :
  In s (Run.history (handleConvert world state)) ->
  map BatchFileItem.id (ConversionState.batchFiles s)
  = map BatchFileItem.id (ConversionState.batchFiles state)
  /\ map BatchFileItem.file (ConversionState.batchFiles s)
     = map BatchFileItem.file (ConversionState.batchFiles state)
  /\ length (ConversionState.batchFiles s) = length (ConversionState.batchFiles state)
  /\ ConversionState.inputMode s = ConversionState.inputMode state
  /\ ConversionState.inputText s = ConversionState.inputText state
  /\ ConversionState.targetFormat s = ConversionState.targetFormat state
  /\ ConversionState.additionalInstructions s = ConversionState.additionalInstructions state
  /\ ConversionState.customFilename s = ConversionState.customFilename state.
Proof.
  intros Hin. destruct (handleConvert_sameQueueAndInputs world state) as [_ Hh].
  rewrite Forall_forall in Hh. destruct (Hh s Hin) as (H1 & H2 & H3).
  split; [exact H1|]. split; [exact H2|]. split; [|exact H3].
  rewrite <- (length_map BatchFileItem.id), H1. apply length_map.
Qed.

Lemma run_keeps_queue_and_inputs_witness :
  In (Run.current (handleConvert firstRefused twoQueued))
     (Run.history (handleConvert firstRefused twoQueued))
  /\ map BatchFileItem.file
       (ConversionState.batchFiles (Run.current (handleConvert firstRefused twoQueued)))
     = [notesTxt; scanPdf].
Proof.
  assert (H : In (Run.current (handleConvert firstRefused twoQueued))
                 (Run.history (handleConvert firstRefused twoQueued)))
    by (left; reflexivity).
  split; [exact H|].
  exact (proj1 (proj2 (run_keeps_queue_and_inputs firstRefused twoQueued _ H))).
Defined.

(** ** Invariants that depend on the outcome of the calls *)

Section RunOutcomeInvariant.

Variable world : nat -> Env.t.
Variable state : ConversionState.t.
Variable P : ConversionState.t -> Prop.

Hypothesis P_error : forall v prev, P prev -> P (ConversionState.set_error v prev).
Hypothesis P_status : forall v prev, P prev -> P (ConversionState.set_status v prev).
Hypothesis P_processing : forall fileItem prev,
  In fileItem (ConversionState.batchFiles state) -> P prev ->
  P (ConversionState.set_batchFiles (updateItem fileItem markProcessing prev)
       (ConversionState.set_activeFileId (Some (BatchFileItem.id fileItem)) prev)).
Hypothesis P_success : forall fileItem k result prev,
  In fileItem (ConversionState.batchFiles state) ->
  outcomeAt world state k fileItem = inr result ->
  P prev ->
  P (ConversionState.set_batchFiles (updateItem fileItem (markSuccess result) prev) prev).
Hypothesis P_rejected : forall fileItem k message prev,
  In fileItem (ConversionState.batchFiles state) ->
  outcomeAt world state k fileItem = inl message ->
  P prev ->
  P (ConversionState.set_batchFiles (updateItem fileItem (markError message) prev) prev).

Lemma convertItem_keeps_outcome r fileItem :
  In fileItem (ConversionState.batchFiles state) -> runKeeps P r ->
  runKeeps P (convertItem world state r fileItem).
Proof.
  intros Hin [Hc Hh]. unfold convertItem.
  destruct (ConversionStatus_eqb (BatchFileItem.status fileItem) Success);
    [split; assumption|].
  unfold awaitConvertContent. cbn [Run.calls Run.current Run.history setState].
  pose proof (P_processing fileItem (Run.current r) Hin Hc) as Hmid.
  destruct (convertContent _ _ _ _) as [message|result] eqn:Hout;
    cbn [Run.calls Run.current Run.history setState].
  - assert (Hend := P_rejected fileItem _ message _ Hin Hout Hmid).
    split; [exact Hend|]. repeat constructor; assumption.
  - assert (Hend := P_success fileItem _ result _ Hin Hout Hmid).
    split; [exact Hend|]. repeat constructor; assumption.
Qed.

Lemma loop_keeps_outcome items : forall r,
  incl items (ConversionState.batchFiles state) -> runKeeps P r ->
  runKeeps P (fold_left (convertItem world state) items r).
Proof.
  induction items as [|f rest IH]; intros r Hincl Hr; cbn [fold_left]; [exact Hr|].
  apply IH.
  - intros g Hg. apply Hincl. right. exact Hg.
  - apply convertItem_keeps_outcome; [apply Hincl; left; reflexivity | exact Hr].
Qed.

(** In file mode every state a run sets has the property. *)
Lemma handleConvert_file_keeps_outcome :
  ConversionState.inputMode state = ModeFile ->
  P state -> runKeeps P (handleConvert world state).
Proof.
  intros Hmode Hs. unfold handleConvert. rewrite Hmode.
  case_eq (ConversionState.batchFiles state); [intros _ | intros f0 rest Hq].
  - split; cbn; [|constructor; [|constructor]]; apply P_error; exact Hs.
  - rewrite <- Hq.
    assert (H1 : runKeeps P (fold_left (convertItem world state)
                               (ConversionState.batchFiles state)
                               (setState (fun prev =>
                                  ConversionState.set_error None
                                    (ConversionState.set_status Processing prev))
                                  (Run.start state)))).
    { apply loop_keeps_outcome; [apply incl_refl|].
      split; cbn; [|constructor; [|constructor]]; apply P_error, P_status, Hs. }
    destruct H1 as [Hc Hh]. split; cbn; [|constructor; [|exact Hh]]; apply P_status, Hc.
Qed.

End RunOutcomeInvariant.

(** X10: from a queue whose failed items carry non-empty messages, every
    state a run of [handleConvert] sets is such a queue again: a failed
    item always has a message to show. *)
Theorem failed_items_have_message (world : nat -> Env.t) (state s : ConversionState.t) :
  failedNonEmpty state ->
  In s (Run.history (handleConvert world state)) ->
  forall f, In f (ConversionState.batchFiles s) -> BatchFileItem.status f = Error ->
  exists message, BatchFileItem.error f = Some message /\ message <> "".
Proof.
  intros Hs Hin.
  assert (Hall : Forall failedNonEmpty (Run.history (handleConvert world state))).
  { destruct (ConversionState.inputMode state) eqn:Hmode.
    - unfold handleConvert. rewrite Hmode. destruct (String.eqb _ _).
      + repeat constructor. exact Hs.
      + unfold awaitConvertContent. cbn [Run.calls Run.current Run.history setState Run.start].
        destruct (convertContent _ _ _ _); repeat constructor; exact Hs.
    - apply (handleConvert_file_keeps_outcome world state failedNonEmpty); try assumption.
      + intros v prev H. exact H.
      + intros v prev H. exact H.
      + intros fileItem prev _ H f Hf Hst. unfold failedNonEmpty in H.
        unfold_setters. unfold updateItem in Hf. apply in_map_iff in Hf as (g & Hg & Hgin).
        destruct (String.eqb _ _); subst f; [discriminate Hst | apply (H g Hgin Hst)].
      + intros fileItem k result prev _ _ H f Hf Hst. unfold failedNonEmpty in H.
        unfold_setters. unfold updateItem in Hf. apply in_map_iff in Hf as (g & Hg & Hgin).
        destruct (String.eqb _ _); subst f; [discriminate Hst | apply (H g Hgin Hst)].
      + intros fileItem k message prev _ Hout H f Hf Hst. unfold failedNonEmpty in H.
        unfold_setters. unfold updateItem in Hf. apply in_map_iff in Hf as (g & Hg & Hgin).
        destruct (String.eqb _ _); subst f; [|apply (H g Hgin Hst)].
        exists message. split; [reflexivity|].
        eapply convertContent_message_nonempty. exact Hout. }
  rewrite Forall_forall in Hall. exact (Hall s Hin).
Qed.

Lemma failed_items_have_message_witness :
  failedNonEmpty twoQueued
  /\ exists message,
       BatchFileItem.error (BatchFileItem.mk "id0" notesTxt Error None (Some "quota exceeded"))
       = Some message /\ message <> "".
Proof.
  assert (H : failedNonEmpty twoQueued).
  { intros f [<-|[<-|[]]] Hst; discriminate Hst. }
  split; [exact H|].
  apply (failed_items_have_message firstRefused twoQueued afterFirstRun H).
  - left. reflexivity.
  - left. reflexivity.
  - reflexivity.
Defined.

(** ** Repeat runs and the item shown after a run *)

Lemma loop_skip world state items : forall r,
  (forall f, In f items -> eligible f = false) ->
  fold_left (convertItem world state) items r = r.
Proof.
  induction items as [|f rest IH]; intros r Hall; cbn [fold_left]; [reflexivity|].
  assert (Hskip : convertItem world state r f = r).
  { unfold convertItem. pose proof (Hall f (or_introl eq_refl)) as Hel.
    unfold eligible in Hel. apply negb_false_iff in Hel. rewrite Hel. reflexivity. }
  rewrite Hskip. apply IH. intros g Hg. apply Hall. right. exact Hg.
Qed.

Lemma run_on_succeeded_queue_aux world state :
  ConversionState.inputMode state = ModeFile ->
  ConversionState.batchFiles state <> [] ->
  (forall f, In f (ConversionState.batchFiles state) -> BatchFileItem.status f = Success) ->
  Run.calls (handleConvert world state) = []
  /\ ConversionState.batchFiles (Run.current (handleConvert world state))
     = ConversionState.batchFiles state.
Proof.
  intros Hmode Hne Hall. unfold handleConvert. rewrite Hmode.
  case_eq (ConversionState.batchFiles state); [intros E; contradiction | intros f0 rest Hq].
  rewrite <- Hq. rewrite loop_skip.
  - cbn. split; reflexivity.
  - intros f Hf. unfold eligible. rewrite (Hall f Hf). reflexivity.
Qed.

(** X11: a run in file mode on a queue whose items have all succeeded
    calls nothing and alters no item and no selection: it only clears the
    error indicator and ends [Idle]. *)
Theorem run_on_succeeded_queue (world : nat -> Env.t) (state : ConversionState.t) :
  ConversionState.inputMode state = ModeFile ->
  ConversionState.batchFiles state <> [] ->
  (forall f, In f (ConversionState.batchFiles state) -> BatchFileItem.status f = Success) ->
  let r := handleConvert world state in
  Run.calls r = []
  /\ Run.current r
     = ConversionState.set_status Idle (ConversionState.set_error None state)
  /\ ConversionState.batchFiles (Run.current r) = ConversionState.batchFiles state
  /\ ConversionState.activeFileId (Run.current r) = ConversionState.activeFileId state.
Proof.
  intros Hmode Hne Hall r. subst r. unfold handleConvert. rewrite Hmode.
  case_eq (ConversionState.batchFiles state); [intros E; contradiction | intros f0 rest Hq].
  rewrite <- Hq. rewrite loop_skip.
  - cbn. repeat split.
  - intros f Hf. unfold eligible. rewrite (Hall f Hf). reflexivity.
Qed.

Lemma run_on_succeeded_queue_witness :
  let done := Run.current (handleConvert (fun _ => answeringEnv "a,b" "ok") twoQueued) in
  ConversionState.inputMode done = ModeFile
  /\ ConversionState.batchFiles done <> []
  /\ Run.calls (handleConvert firstRefused done) = [].
Proof.
  intros done.
  assert (H1 : ConversionState.inputMode done = ModeFile) by reflexivity.
  assert (H2 : ConversionState.batchFiles done <> []) by discriminate.
  split; [exact H1|]. split; [exact H2|].
  apply (run_on_succeeded_queue firstRefused done H1 H2).
  intros f [<-|[<-|[]]]; reflexivity.
Defined.

Lemma batchResult_all_success world state items : forall k,
  (forall j f, In f items -> exists text, outcomeAt world state j f = inr text) ->
  forall g, In g (batchResult world state k items) -> BatchFileItem.status g = Success.
Proof.
  induction items as [|f rest IH]; intros k Hall g Hg; cbn in Hg; [contradiction|].
  destruct (eligible f) eqn:Hel; destruct Hg as [<-|Hg].
  - destruct (Hall k f (or_introl eq_refl)) as (text & ->). reflexivity.
  - apply (IH (S k)); [|exact Hg]. intros j h Hh. apply Hall. right. exact Hh.
  - unfold eligible in Hel. apply negb_false_iff in Hel.
    destruct (BatchFileItem.status f); try discriminate Hel. reflexivity.
  - apply (IH k); [|exact Hg]. intros j h Hh. apply Hall. right. exact Hh.
Qed.

(** X12: after a run in file mode in which every conversion call resolved,
    every item is [Success], and a second run calls nothing and leaves the
    queue as the first run left it. *)
Theorem rerun_after_full_success (world world' : nat -> Env.t) (state : ConversionState.t) :
  ConversionState.inputMode state = ModeFile ->
  ConversionState.batchFiles state <> [] ->
  NoDup (queueIds state) ->
  (forall k f, In f (ConversionState.batchFiles state) ->
     exists text, outcomeAt world state k f = inr text) ->
  let first := Run.current (handleConvert world state) in
  (forall g, In g (ConversionState.batchFiles first) -> BatchFileItem.status g = Success)
  /\ Run.calls (handleConvert world' first) = []
  /\ ConversionState.batchFiles (Run.current (handleConvert world' first))
     = ConversionState.batchFiles first.
Proof.
  intros Hmode Hne Hnd Hall first.
  destruct (handleConvert_file world state Hmode Hne Hnd) as (Hres & _).
  fold first in Hres.
  assert (Hsucc : forall g, In g (ConversionState.batchFiles first) ->
                            BatchFileItem.status g = Success).
  { intros g Hg. rewrite Hres in Hg.
    eapply batchResult_all_success; [exact Hall | exact Hg]. }
  destruct (handleConvert_sameQueueAndInputs world state) as [(_ & _ & Hm & _) _].
  fold first in Hm.
  assert (Hne' : ConversionState.batchFiles first <> []).
  { intros E. apply Hne. apply length_zero_iff_nil.
    rewrite <- (batchResult_length world state (ConversionState.batchFiles state) 0).
    rewrite <- Hres, E. reflexivity. }
  split; [exact Hsucc|].
  assert (Hm' : ConversionState.inputMode first = ModeFile) by congruence.
  destruct (run_on_succeeded_queue_aux world' first Hm' Hne' Hsucc) as (Hc & Hq).
  split; assumption.
Qed.

Lemma rerun_after_full_success_witness :
  ConversionState.inputMode twoQueued = ModeFile
  /\ ConversionState.batchFiles twoQueued <> []
  /\ NoDup (queueIds twoQueued)
  /\ Run.calls (handleConvert firstRefused
                  (Run.current (handleConvert (fun _ => answeringEnv "a,b" "ok") twoQueued)))
     = [].
Proof.
  assert (H1 : ConversionState.inputMode twoQueued = ModeFile) by reflexivity.
  assert (H2 : ConversionState.batchFiles twoQueued <> []) by discriminate.
  assert (H3 : NoDup (queueIds twoQueued)).
  { repeat constructor; cbn; intuition discriminate. }
  split; [exact H1|]. split; [exact H2|]. split; [exact H3|].
  apply (rerun_after_full_success (fun _ => answeringEnv "a,b" "ok") firstRefused twoQueued
           H1 H2 H3).
  intros k f [<-|[<-|[]]]; eexists; reflexivity.
Defined.

Lemma last_cons {A} (x d : A) l : last (x :: l) d = last l x.
Proof.
  revert x d. induction l as [|y l IH]; intros x d; [reflexivity|].
  change (last (x :: y :: l) d) with (last (y :: l) d).
  rewrite (IH y d), (IH y x). reflexivity.
Qed.

Lemma convertItem_active world state r f :
  eligible f = true ->
  ConversionState.activeFileId (Run.current (convertItem world state r f))
  = Some (BatchFileItem.id f).
Proof.
  intros Hel. unfold convertItem. unfold eligible in Hel. apply negb_true_iff in Hel.
  rewrite Hel. unfold awaitConvertContent. cbn [Run.calls Run.current Run.history setState].
  destruct (convertContent _ _ _ _); reflexivity.
Qed.

(** The selection after the loop: the last item it attempted. *)
Lemma loop_active world state items : forall r,
  ConversionState.activeFileId (Run.current (fold_left (convertItem world state) items r))
  = last (map (fun f => Some (BatchFileItem.id f)) (filter eligible items))
         (ConversionState.activeFileId (Run.current r)).
Proof.
  induction items as [|f rest IH]; intros r; cbn [fold_left filter]; [reflexivity|].
  rewrite IH. destruct (eligible f) eqn:Hel.
  - rewrite convertItem_active by exact Hel. cbn [map]. rewrite last_cons. reflexivity.
  - unfold convertItem. unfold eligible in Hel. apply negb_false_iff in Hel.
    rewrite Hel. reflexivity.
Qed.

Lemma batchResult_app world state a : forall k b,
  batchResult world state k (a ++ b)
  = batchResult world state k a
    ++ batchResult world state (k + length (filter eligible a)) b.
Proof.
  induction a as [|f rest IH]; intros k b; cbn [app batchResult filter length].
  - rewrite Nat.add_0_r. reflexivity.
  - destruct (eligible f); cbn [length app]; rewrite IH; [|reflexivity].
    rewrite Nat.add_succ_r. reflexivity.
Qed.

Lemma batchResult_ids world state items : forall k,
  map BatchFileItem.id (batchResult world state k items) = map BatchFileItem.id items.
Proof.
  induction items as [|f rest IH]; intros k; cbn; [reflexivity|].
  destruct (eligible f); cbn; rewrite IH, ?settled_id; reflexivity.
Qed.

Lemma find_middle (before after : list BatchFileItem.t) (x : BatchFileItem.t) :
  ~ In (BatchFileItem.id x) (map BatchFileItem.id before) ->
  find (fun g => String.eqb (BatchFileItem.id g) (BatchFileItem.id x)) (before ++ x :: after)
  = Some x.
Proof.
  induction before as [|g rest IH]; intros Hnot; cbn.
  - rewrite String.eqb_refl. reflexivity.
  - destruct (String.eqb_spec (BatchFileItem.id g) (BatchFileItem.id x)) as [E|_].
    + exfalso. apply Hnot. left. exact E.
    + apply IH. intros H. apply Hnot. right. exact H.
Qed.

(** X13: after a run in file mode on a consistent queue of distinct
    identities, the item selected is the last one the run attempted, and
    the result shown is the text of that item's call when it resolved and
    nothing when it was rejected, whatever the items before it hold. *)
Theorem run_shows_last_attempted (world : nat -> Env.t) (state : ConversionState.t)
  (before after : list BatchFileItem.t) (f : BatchFileItem.t) :
  ConversionState.inputMode state = ModeFile ->
  NoDup (queueIds state) ->
  queueConsistent state ->
  ConversionState.batchFiles state = before ++ f :: after ->
  eligible f = true ->
  (forall g, In g after -> eligible g = false) ->
  BatchFileItem.id f <> "" ->
  let r := handleConvert world state in
  ConversionState.activeFileId (Run.current r) = Some (BatchFileItem.id f)
  /\ getCurrentResult (Run.current r)
     = match outcomeAt world state (length (filter eligible before)) f with
       | inr text => text
       | inl _ => ""
       end.
Proof.
  intros Hmode Hnd Hcons Hq Hel Hafter Hid r.
  assert (Hne : ConversionState.batchFiles state <> []).
  { rewrite Hq. destruct before; discriminate. }
  destruct (handleConvert_file world state Hmode Hne Hnd) as (Hres & _).
  fold r in Hres.
  destruct (handleConvert_sameQueueAndInputs world state) as [(_ & _ & Hm & _) _].
  fold r in Hm.
  assert (Hact : ConversionState.activeFileId (Run.current r) = Some (BatchFileItem.id f)).
  { subst r. unfold handleConvert. rewrite Hmode.
    case_eq (ConversionState.batchFiles state); [intros E; contradiction | intros f0 rest E].
    rewrite <- E. cbn [setState Run.current]. unfold_setters.
    rewrite loop_active, Hq, filter_app, map_app. cbn [filter]. rewrite Hel.
    assert (Hnone : filter eligible after = []).
    { clear - Hafter. induction after as [|g rest IH]; [reflexivity|]. cbn.
      rewrite (Hafter g (or_introl eq_refl)). apply IH. intros h Hh. apply Hafter.
      right. exact Hh. }
    rewrite Hnone. cbn [map]. rewrite last_last. reflexivity. }
  split; [exact Hact|].
  unfold getCurrentResult, findActive. rewrite Hm, Hmode, Hact. unfold Js.truthy.
  apply String.eqb_neq in Hid. rewrite Hid. cbn [negb].
  rewrite Hres, Hq, batchResult_app. cbn [batchResult plus]. rewrite Hel.
  rewrite <- (settled_id (outcomeAt world state (0 + length (filter eligible before)) f) f).
  rewrite find_middle.
  - cbn [plus]. destruct (outcomeAt world state (length (filter eligible before)) f)
      as [message|text] eqn:Hout; unfold settled; unfold_marks.
    + assert (Hr : BatchFileItem.result f = None).
      { unfold queueConsistent in Hcons. rewrite Hq in Hcons.
        apply Forall_app in Hcons as [_ Hc]. inversion Hc as [|? ? Hf _]; subst.
        apply eligible_status in Hel. unfold itemConsistent in Hf.
        destruct (BatchFileItem.status f); try apply Hf. congruence. }
      rewrite Hr. reflexivity.
    + unfold Js.orStr. unfold outcomeAt in Hout.
      pose proof (convertContent_nonempty _ _ _ _ _ Hout) as Hne'.
      apply String.eqb_neq in Hne'. rewrite Hne'. reflexivity.
  - rewrite settled_id, batchResult_ids.
    unfold queueIds in Hnd. rewrite Hq, map_app in Hnd. cbn [map] in Hnd.
    apply NoDup_remove_2 in Hnd. intros H. apply Hnd, in_or_app. left. exact H.
Qed.

Lemma run_shows_last_attempted_witness :
  getCurrentResult (Run.current (handleConvert firstRefused twoQueued)) = "converted".
Proof.
  refine (proj2 (run_shows_last_attempted firstRefused twoQueued
                   [BatchFileItem.mk "id0" notesTxt Idle None None] []
                   (BatchFileItem.mk "id1" scanPdf Idle None None)
                   eq_refl _ _ eq_refl eq_refl _ _)).
  - repeat constructor; cbn; intuition discriminate.
  - repeat constructor.
  - intros g [].
  - discriminate.
Defined.

(** ** Removing and queueing, and what every operation keeps *)

Lemma filter_all {A} (p : A -> bool) l : (forall x, In x l -> p x = true) -> filter p l = l.
Proof.
  induction l as [|x rest IH]; intros H; cbn; [reflexivity|].
  rewrite (H x (or_introl eq_refl)), IH; [reflexivity|].
  intros y Hy. apply H. right. exact Hy.
Qed.

Lemma NoDup_map_filter {A B} (g : A -> B) (p : A -> bool) l :
  NoDup (map g l) -> NoDup (map g (filter p l)).
Proof.
  induction l as [|x rest IH]; cbn; intros H; [constructor|].
  inversion H as [|? ? Hnot Hrest]; subst. destruct (p x); cbn; [|apply IH; exact Hrest].
  constructor; [|apply IH; exact Hrest].
  intros Hin. apply Hnot. apply in_map_iff in Hin as (y & Hy & Hyin).
  apply in_map_iff. exists y. split; [exact Hy|]. apply filter_In in Hyin. apply Hyin.
Qed.

Lemma removeFile_queue id s :
  ConversionState.batchFiles (removeFile id s)
  = filter (fun f => negb (String.eqb (BatchFileItem.id f) id)) (ConversionState.batchFiles s).
Proof. reflexivity. Qed.

Lemma remove_one_length id (l : list BatchFileItem.t) :
  NoDup (map BatchFileItem.id l) -> In id (map BatchFileItem.id l) ->
  S (length (filter (fun f => negb (String.eqb (BatchFileItem.id f) id)) l)) = length l.
Proof.
  induction l as [|x rest IH]; cbn; intros Hnd Hin; [contradiction|].
  inversion Hnd as [|? ? Hnot Hrest]; subst.
  destruct (String.eqb_spec (BatchFileItem.id x) id) as [E|N]; cbn.
  - rewrite filter_all; [reflexivity|].
    intros y Hy. apply negb_true_iff, String.eqb_neq. intros Ey. apply Hnot.
    rewrite E, <- Ey. apply in_map. exact Hy.
  - f_equal. apply IH; [exact Hrest|]. destruct Hin as [Hin|Hin]; [contradiction | exact Hin].
Qed.

(** X14: [removeFile] deletes every item of the given identity and nothing
    else, keeping the others in their order: the queue left is the old one
    with those items filtered out, and among distinct identities it is what
    stood before the removed item followed by what stood after it. With an
    identity that is not queued it changes nothing at all; among distinct
    identities the ones left stay distinct and removing a queued identity
    shortens the queue by exactly one. *)
Theorem removeFile_spec (id : string) (s : ConversionState.t) :
  ~ In id (queueIds (removeFile id s))
  /\ (forall f, In f (ConversionState.batchFiles (removeFile id s))
                <-> In f (ConversionState.batchFiles s) /\ BatchFileItem.id f <> id)
  /\ (~ In id (queueIds s) -> activeValid s -> removeFile id s = s)
  /\ (NoDup (queueIds s) -> NoDup (queueIds (removeFile id s)))
  /\ (NoDup (queueIds s) -> In id (queueIds s) ->
      S (length (ConversionState.batchFiles (removeFile id s)))
      = length (ConversionState.batchFiles s))
  /\ ConversionState.batchFiles (removeFile id s)
     = filter (fun f => negb (String.eqb (BatchFileItem.id f) id))
              (ConversionState.batchFiles s)
  /\ (forall before f after,
        NoDup (queueIds s) ->
        ConversionState.batchFiles s = before ++ f :: after ->
        BatchFileItem.id f = id ->
        ConversionState.batchFiles (removeFile id s) = before ++ after)
  /\ (forall before f after,
        ConversionState.batchFiles s = before ++ f :: after ->
        BatchFileItem.id f <> id ->
        exists before' after',
          ConversionState.batchFiles (removeFile id s) = before' ++ f :: after'
          /\ before' = filter (fun g => negb (String.eqb (BatchFileItem.id g) id)) before
          /\ after' = filter (fun g => negb (String.eqb (BatchFileItem.id g) id)) after).
Proof.
  split; [|split; [|split; [|split; [|split; [|split; [|split]]]]]].
  - unfold queueIds. rewrite removeFile_queue. intros Hin.
    apply in_map_iff in Hin as (f & Hf & Hin). apply filter_In in Hin as [_ Hneq].
    apply negb_true_iff, String.eqb_neq in Hneq. contradiction.
  - intros f. rewrite removeFile_queue, filter_In, negb_true_iff, String.eqb_neq.
    reflexivity.
  - intros Hnot Hv. unfold removeFile.
    assert (Hq : filter (fun f => negb (String.eqb (BatchFileItem.id f) id))
                   (ConversionState.batchFiles s) = ConversionState.batchFiles s).
    { apply filter_all. intros f Hf. apply negb_true_iff, String.eqb_neq. intros E.
      apply Hnot. unfold queueIds. rewrite <- E. apply in_map. exact Hf. }
    rewrite Hq. unfold activeValid in Hv. destruct s as [m t q a tf st tr e ai cf].
    unfold_setters. destruct a as [a|]; [|reflexivity].
    destruct (String.eqb_spec id a) as [->|_]; [contradiction | reflexivity].
  - unfold queueIds. rewrite removeFile_queue. apply NoDup_map_filter.
  - unfold queueIds. rewrite removeFile_queue. apply remove_one_length.
  - apply removeFile_queue.
  - intros before f after Hnd Hq Hid. rewrite removeFile_queue, Hq, filter_app.
    cbn [filter]. rewrite Hid, String.eqb_refl. cbn [negb].
    unfold queueIds in Hnd. rewrite Hq, map_app in Hnd. cbn [map] in Hnd.
    apply NoDup_remove_2 in Hnd. rewrite Hid in Hnd.
    rewrite !filter_all; [reflexivity| |].
    + intros g Hg. apply negb_true_iff, String.eqb_neq. intros E. apply Hnd, in_or_app.
      right. rewrite <- E. apply in_map. exact Hg.
    + intros g Hg. apply negb_true_iff, String.eqb_neq. intros E. apply Hnd, in_or_app.
      left. rewrite <- E. apply in_map. exact Hg.
  - intros before f after Hq Hid. rewrite removeFile_queue, Hq, filter_app.
    cbn [filter]. apply String.eqb_neq in Hid. rewrite Hid. cbn [negb].
    eexists. eexists. split; [reflexivity|]. split; reflexivity.
Qed.

Lemma removeFile_spec_witness :
  NoDup (queueIds twoQueued)
  /\ In "id0" (queueIds twoQueued)
  /\ S (length (ConversionState.batchFiles (removeFile "id0" twoQueued))) = 2%nat
  /\ ConversionState.batchFiles (removeFile "id0" twoQueued)
     = [BatchFileItem.mk "id1" scanPdf Idle None None].
Proof.
  assert (H1 : NoDup (queueIds twoQueued)).
  { repeat constructor; cbn; intuition discriminate. }
  assert (H2 : In "id0" (queueIds twoQueued)) by (left; reflexivity).
  split; [exact H1|]. split; [exact H2|]. split.
  - exact (proj1 (proj2 (proj2 (proj2 (proj2 (removeFile_spec "id0" twoQueued))))) H1 H2).
  - exact (proj1 (proj2 (proj2 (proj2 (proj2 (proj2 (proj2
             (removeFile_spec "id0" twoQueued)))))))
             [] (BatchFileItem.mk "id0" notesTxt Idle None None)
             [BatchFileItem.mk "id1" scanPdf Idle None None] H1 eq_refl eq_refl).
Defined.

Lemma freshItem_consistent f : freshItem f -> itemConsistent f.
Proof.
  intros (Hst & Hr & He). unfold itemConsistent. rewrite Hst. split; assumption.
Qed.

Lemma handleConvert_history_consistent world state :
  NoDup (queueIds state) -> queueConsistent state ->
  Forall queueConsistent (Run.history (handleConvert world state)).
Proof.
  intros Hnd Hc. destruct (ConversionState.inputMode state) eqn:Hmode.
  - unfold handleConvert. rewrite Hmode. destruct (String.eqb _ _).
    + repeat constructor. exact Hc.
    + unfold awaitConvertContent. cbn [Run.calls Run.current Run.history setState Run.start].
      destruct (convertContent _ _ _ _); repeat constructor; exact Hc.
  - case_eq (ConversionState.batchFiles state); [intros Hq | intros f0 rest Hq].
    + unfold handleConvert. rewrite Hmode, Hq. repeat constructor. exact Hc.
    + apply handleConvert_file; [exact Hmode | rewrite Hq; discriminate | exact Hnd | exact Hc].
Qed.

(** X15: the consistency of items is kept by every operation. From a queue
    of distinct identities in which every item has its result set exactly
    when it is [Success] and its error exactly when it is [Error], every
    state operation, and every state a run sets, gives such a queue again;
    the items queued by [processFiles] start with neither set. *)
Theorem step_keeps_consistency (s s' : ConversionState.t) :
  NoDup (queueIds s) ->
  queueConsistent s ->
  step s s' ->
  queueConsistent s'.
Proof.
  intros Hnd Hc Hstep. inversion Hstep; subst; clear Hstep; try exact Hc.
  - unfold handleFiles. destruct files as [|file rest]; [exact Hc|].
    unfold queueConsistent. rewrite (proj1 (processFiles_queue ids (file :: rest) s)).
    apply Forall_app. split; [exact Hc|].
    eapply Forall_impl; [|apply pushed_fresh]. intros f. apply freshItem_consistent.
  - unfold queueConsistent in *. rewrite removeFile_queue.
    rewrite Forall_forall in *. intros f Hf. apply filter_In in Hf. apply Hc, Hf.
  - unfold selectActive. destruct (nth_error _ i); exact Hc.
  - pose proof (handleConvert_history_consistent world s Hnd Hc) as Hall.
    rewrite Forall_forall in Hall. apply Hall. assumption.
Qed.

Lemma step_keeps_consistency_witness :
  NoDup (queueIds afterFirstRun)
  /\ queueConsistent afterFirstRun
  /\ queueConsistent (removeFile "id1" afterFirstRun).
Proof.
  assert (H1 : NoDup (queueIds afterFirstRun)).
  { repeat constructor; cbn; intuition discriminate. }
  assert (H2 : queueConsistent afterFirstRun).
  { repeat constructor; cbn; discriminate. }
  split; [exact H1|]. split; [exact H2|].
  exact (step_keeps_consistency afterFirstRun _ H1 H2 (step_removeFile "id1" afterFirstRun)).
Defined.

(** X16: [processFiles] draws an identifier for an admitted candidate only,
    one each and in order, so the identities of the queue grow by the first
    draws, as many as candidates were admitted; if those are new and
    distinct, the identities of the queue stay distinct, as they do under
    [removeFile], under the row click and in every state a run sets. *)
Theorem distinct_ids_kept (s : ConversionState.t) :
  NoDup (queueIds s) ->
  (forall ids files,
      queueIds (processFiles ids files s)
      = queueIds s ++ map ids (seq 0 (length (filter admitted files))))
  /\ (forall ids files,
        NoDup (queueIds s ++ map ids (seq 0 (length (filter admitted files)))) ->
        NoDup (queueIds (handleFiles ids files s)))
  /\ (forall id, NoDup (queueIds (removeFile id s)))
  /\ (forall i, NoDup (queueIds (selectActive i s)))
  /\ (forall world s', In s' (Run.history (handleConvert world s)) -> NoDup (queueIds s')).
Proof.
  intros Hnd.
  assert (Hids : forall ids files,
             queueIds (processFiles ids files s)
             = queueIds s ++ map ids (seq 0 (length (filter admitted files)))).
  { intros ids files. unfold queueIds.
    rewrite (proj1 (processFiles_queue ids files s)), map_app, pushed_ids. reflexivity. }
  split; [exact Hids|]. split; [|split; [|split]].
  - intros ids files H. unfold handleFiles. destruct files as [|file rest]; [exact Hnd|].
    rewrite Hids. exact H.
  - intros id. unfold queueIds. rewrite removeFile_queue. apply NoDup_map_filter. exact Hnd.
  - intros i. unfold selectActive. destruct (nth_error _ i); exact Hnd.
  - intros world s' Hin. destruct (handleConvert_sameQueueAndInputs world s) as [_ Hh].
    rewrite Forall_forall in Hh. destruct (Hh s' Hin) as (H1 & _).
    unfold queueIds. rewrite H1. exact Hnd.
Qed.

Lemma distinct_ids_kept_witness :
  NoDup (queueIds twoQueued)
  /\ queueIds (processFiles (fun k => "n" ++ Js.digits (N.of_nat k))%string
                 [hugePng; notesTxt] twoQueued)
     = ["id0"; "id1"; "n0"].
Proof.
  assert (H : NoDup (queueIds twoQueued)).
  { repeat constructor; cbn; intuition discriminate. }
  split; [exact H|].
  rewrite (proj1 (distinct_ids_kept twoQueued H) _ [hugePng; notesTxt]).
  reflexivity.
Defined.

Lemma split_trailing_dot stem :
  exists w parts, Js.split "." (stem ++ ".") = w :: parts ++ [""].
Proof.
  induction stem as [|c r IH].
  - exists "", []. reflexivity.
  - destruct IH as (w & parts & IH). cbn [append Js.split]. rewrite IH.
    destruct (Ascii.eqb c "."); [exists "", (w :: parts) | exists (String c w), parts];
      reflexivity.
Qed.

Lemma fileExt_trailing_dot file stem :
  File.name file = (stem ++ ".")%string -> fileExtOf file = ".".
Proof.
  intros Hname. unfold fileExtOf, extensionOf, Js.pop. rewrite Hname.
  destruct (split_trailing_dot stem) as (w & parts & ->).
  change (w :: parts ++ [""]) with ((w :: parts) ++ [""]). rewrite rev_app_distr.
  reflexivity.
Qed.

(** X17: the extension test is a substring test on the accept string, so a
    name that ends with a dot passes it: within the size ceiling, a file
    whose name ends with [.] is queued whatever type it declares. *)
Theorem trailing_dot_admitted (ids : nat -> string) (file : File.t) (stem : string)
  (prev : ConversionState.t) :
  File.name file = (stem ++ ".")%string ->
  (File.size file <= MAX_SIZE)%N ->
  isValidExt file = true
  /\ ConversionState.batchFiles (processFiles ids [file] prev)
     = ConversionState.batchFiles prev ++ [BatchFileItem.mk (ids 0%nat) file Idle None None]
  /\ ConversionState.error (processFiles ids [file] prev) = ConversionState.error prev.
Proof.
  intros Hname Hsize.
  assert (Hext : isValidExt file = true).
  { unfold isValidExt. rewrite (fileExt_trailing_dot file stem Hname). reflexivity. }
  assert (Hadm : admitted file = true).
  { unfold admitted, typeRule, withinCeiling. rewrite Hext, orb_true_r.
    apply andb_true_iff. split; [apply N.leb_le; exact Hsize | reflexivity]. }
  split; [exact Hext|]. unfold processFiles. cbn [fold_left].
  rewrite (processFile_admitted ids [] None file Hadm). unfold_setters.
  split; reflexivity.
Qed.

Lemma trailing_dot_admitted_witness :
  let file := File.mk "payload." 2048 "application/x-msdownload" in
  File.name file = ("payload" ++ ".")%string
  /\ (File.size file <= MAX_SIZE)%N
  /\ map BatchFileItem.file
       (ConversionState.batchFiles (processFiles sampleIds [file] initialState))
     = [file].
Proof.
  intros file.
  assert (H1 : File.name file = ("payload" ++ ".")%string) by reflexivity.
  assert (H2 : (File.size file <= MAX_SIZE)%N) by (vm_compute; discriminate).
  split; [exact H1|]. split; [exact H2|].
  rewrite (proj1 (proj2 (trailing_dot_admitted sampleIds file "payload" initialState H1 H2))).
  reflexivity.
Defined.

(** X18: [processFiles] touches nothing but the end of the queue, the
    selection when there is none, and the error indicator: the items
    already queued stay as they are and first, a selected item of non-empty
    identity stays selected, and mode, input text, target, run status, text
    result, instructions and file name are as before. *)
Theorem processFiles_leaves_rest (ids : nat -> string) (files : list File.t)
  (prev : ConversionState.t) :
  let next := processFiles ids files prev in
  firstn (length (ConversionState.batchFiles prev)) (ConversionState.batchFiles next)
  = ConversionState.batchFiles prev
  /\ (forall a, ConversionState.activeFileId prev = Some a -> a <> "" ->
        ConversionState.activeFileId next = Some a)
  /\ ConversionState.inputMode next = ConversionState.inputMode prev
  /\ ConversionState.inputText next = ConversionState.inputText prev
  /\ ConversionState.targetFormat next = ConversionState.targetFormat prev
  /\ ConversionState.status next = ConversionState.status prev
  /\ ConversionState.textResult next = ConversionState.textResult prev
  /\ ConversionState.additionalInstructions next = ConversionState.additionalInstructions prev
  /\ ConversionState.customFilename next = ConversionState.customFilename prev.
Proof.
  intros next. subst next.
  destruct (processFiles_queue ids files prev) as [Hq Ha].
  split; [|split].
  - rewrite Hq, firstn_app, Nat.sub_diag, firstn_all. cbn. apply app_nil_r.
  - intros a Hact Hne. rewrite Ha, Hact. unfold Js.or, Js.truthy.
    apply String.eqb_neq in Hne. rewrite Hne. reflexivity.
  - unfold processFiles. destruct (fold_left _ _ _) as [newFiles errorMsg].
    unfold_setters. repeat split.
Qed.

(** ** The download *)

Lemma safeNameOf_cons c r :
  safeNameOf (String c r) =
  let n := N_of_ascii c in
  if (n <? 128)%N then
    String (if keptAscii n then c else "_"%char) (safeNameOf r)
  else if (n <? 224)%N then
    match r with
    | String c2 r2 =>
        let n2 := N_of_ascii c2 in
        if isContinuation n2 && keptCodePoint ((n - 192) * 64 + (n2 - 128))%N
        then String c (String c2 (safeNameOf r2))
        else String "_"%char (safeNameOf r2)
    | EmptyString => String "_"%char EmptyString
    end
  else if (n <? 240)%N then
    match r with
    | String c2 (String c3 r3) =>
        let n2 := N_of_ascii c2 in
        let n3 := N_of_ascii c3 in
        if isContinuation n2 && isContinuation n3
           && keptCodePoint ((n - 224) * 4096 + (n2 - 128) * 64 + (n3 - 128))%N
        then String c (String c2 (String c3 (safeNameOf r3)))
        else String "_"%char (safeNameOf r3)
    | _ => String "_"%char EmptyString
    end
  else
    match r with
    | String _ (String _ (String _ r4)) =>
        String "_"%char (String "_"%char (safeNameOf r4))
    | _ => String "_"%char EmptyString
    end.
Proof. reflexivity. Qed.

Lemma high_byte_safe n : (n <? 128)%N = false -> safeByte n = true.
Proof.
  intros H. unfold safeByte. apply N.ltb_ge in H. apply N.leb_le in H. rewrite H. reflexivity.
Qed.

Lemma continuation_safe n : isContinuation n = true -> safeByte n = true.
Proof.
  unfold isContinuation, safeByte. intros H. apply andb_true_iff in H as [H _].
  rewrite H. reflexivity.
Qed.

Lemma underscore_safe : safeByte (N_of_ascii "_"%char) = true.
Proof. reflexivity. Qed.

(** Every byte of a made-safe name is safe. *)
Lemma safeNameOf_safe_bounded (n : nat) : forall s,
  (String.length s <= n)%nat -> allBytes safeByte (safeNameOf s) = true.
Proof.
  induction n as [|n IH]; intros s Hlen.
  - destruct s; [reflexivity | cbn in Hlen; lia].
  - destruct s as [|c r]; [reflexivity|]. cbn [String.length] in Hlen.
    rewrite safeNameOf_cons. cbv zeta.
    destruct (N_of_ascii c <? 128)%N eqn:H1.
    { cbn [allBytes]. rewrite IH by lia. rewrite andb_true_r.
      destruct (keptAscii (N_of_ascii c)) eqn:Hk; [|reflexivity].
      unfold safeByte. rewrite Hk. apply orb_true_r. }
    pose proof (high_byte_safe _ H1) as Hc.
    destruct (N_of_ascii c <? 224)%N.
    { destruct r as [|c2 r2]; [reflexivity|]. cbn [String.length] in Hlen.
      destruct (isContinuation (N_of_ascii c2)) eqn:H2; cbn [andb].
      - destruct (keptCodePoint _); cbn [allBytes].
        + rewrite Hc, (continuation_safe _ H2), IH by lia. reflexivity.
        + rewrite IH by lia. reflexivity.
      - cbn [allBytes]. rewrite IH by lia. reflexivity. }
    destruct (N_of_ascii c <? 240)%N.
    { destruct r as [|c2 [|c3 r3]]; try reflexivity. cbn [String.length] in Hlen.
      destruct (isContinuation (N_of_ascii c2)) eqn:H2; cbn [andb];
        [|cbn [allBytes]; rewrite IH by lia; reflexivity].
      destruct (isContinuation (N_of_ascii c3)) eqn:H3; cbn [andb];
        [|cbn [allBytes]; rewrite IH by lia; reflexivity].
      destruct (keptCodePoint _); cbn [allBytes].
      - rewrite Hc, (continuation_safe _ H2), (continuation_safe _ H3), IH by lia.
        reflexivity.
      - rewrite IH by lia. reflexivity. }
    destruct r as [|c2 [|c3 [|c4 r4]]]; try reflexivity. cbn [String.length] in Hlen.
    cbn [allBytes]. rewrite IH by lia. reflexivity.
Qed.

Lemma safeNameOf_safe s : allBytes safeByte (safeNameOf s) = true.
Proof. apply (safeNameOf_safe_bounded (String.length s)). lia. Qed.

Lemma safeByte_notDot n : safeByte n = true -> notDot n = true.
Proof.
  unfold notDot. destruct (N.eqb_spec n 46) as [->|_]; [discriminate | reflexivity].
Qed.

Lemma allBytes_impl (p q : N -> bool) s :
  (forall n, p n = true -> q n = true) -> allBytes p s = true -> allBytes q s = true.
Proof.
  intros Hpq. induction s as [|c r IH]; cbn; [reflexivity|].
  intros H. apply andb_true_iff in H as [H1 H2]. rewrite (Hpq _ H1), (IH H2). reflexivity.
Qed.

Lemma notDot_char c : notDot (N_of_ascii c) = true -> Ascii.eqb c "." = false.
Proof.
  intros H. destruct (Ascii.eqb_spec c ".") as [->|_]; [discriminate H | reflexivity].
Qed.

Lemma split_no_dot s : allBytes notDot s = true -> Js.split "." s = [s].
Proof.
  induction s as [|c r IH]; cbn; [reflexivity|].
  intros H. apply andb_true_iff in H as [H1 H2].
  rewrite (notDot_char _ H1), (IH H2). reflexivity.
Qed.

Lemma split_at_dot a b :
  allBytes notDot a = true ->
  Js.split "." (a ++ String "." b) = a :: Js.split "." b.
Proof.
  induction a as [|c r IH]; cbn; [reflexivity|].
  intros H. apply andb_true_iff in H as [H1 H2].
  rewrite (notDot_char _ H1), (IH H2). reflexivity.
Qed.

Lemma extension_no_dot targetFormat : allBytes notDot (fst (downloadKind targetFormat)) = true.
Proof. destruct targetFormat; reflexivity. Qed.

(** X19: [handleDownload] does nothing when no result is shown. Otherwise
    it offers the result shown, under a name made of a body and the
    extension of the target format: the body holds no ASCII character other
    than letters, digits, [_], [-] and white space, so no dot, slash or
    colon, and the only dot of the name is the one before the extension,
    which is therefore the extension of the name. *)
Theorem handleDownload_spec (state : ConversionState.t) :
  (getCurrentResult state = "" -> handleDownload state = None)
  /\ (getCurrentResult state <> "" ->
      let extension := fst (downloadKind (ConversionState.targetFormat state)) in
      let body := safeNameOf (downloadBaseName state) in
      handleDownload state
      = Some (Download.mk (body ++ "." ++ extension)%string
                (snd (downloadKind (ConversionState.targetFormat state)))
                (getCurrentResult state))
      /\ allBytes safeByte body = true
      /\ Js.split "." (body ++ "." ++ extension) = [body; extension]
      /\ Js.pop (Js.split "." (body ++ "." ++ extension)) = Some extension).
Proof.
  split.
  - intros H. unfold handleDownload. rewrite H. reflexivity.
  - intros H extension body. subst extension body.
    pose proof (safeNameOf_safe (downloadBaseName state)) as Hsafe.
    assert (Hsplit : Js.split "." (safeNameOf (downloadBaseName state) ++ "."
                                   ++ fst (downloadKind (ConversionState.targetFormat state)))
                     = [safeNameOf (downloadBaseName state);
                        fst (downloadKind (ConversionState.targetFormat state))]).
    { cbn [append]. rewrite split_at_dot.
      - rewrite split_no_dot by apply extension_no_dot. reflexivity.
      - eapply allBytes_impl; [apply safeByte_notDot | exact Hsafe]. }
    split; [|split; [exact Hsafe | split; [exact Hsplit | rewrite Hsplit; reflexivity]]].
    unfold handleDownload. apply String.eqb_neq in H. rewrite H.
    destruct (downloadKind (ConversionState.targetFormat state)); reflexivity.
Qed.

Lemma handleDownload_spec_witness :
  let shown := Run.current (handleConvert (fun _ => answeringEnv "a,b" "a;b")
                              (setTarget CSV twoQueued)) in
  getCurrentResult shown <> ""
  /\ handleDownload shown = Some (Download.mk "scan_converted.csv" "text/csv" "a;b").
Proof.
  intros shown.
  assert (H : getCurrentResult shown <> "") by discriminate.
  split; [exact H|].
  rewrite (proj1 (proj2 (handleDownload_spec shown) H)). reflexivity.
Defined.

(** ** File names: the cut at the last dot *)

Lemma lastIndexOf_no_dot b : forall i hit,
  allBytes notDot b = true -> lastIndexOfFrom "." b i hit = hit.
Proof.
  induction b as [|c r IH]; intros i hit H; cbn; [reflexivity|].
  cbn in H. apply andb_true_iff in H as [H1 H2].
  rewrite (notDot_char _ H1). apply IH. exact H2.
Qed.

Lemma lastIndexOf_last_dot a b : forall i hit,
  allBytes notDot b = true ->
  lastIndexOfFrom "." (a ++ String "." b) i hit = Some (i + String.length a)%nat.
Proof.
  induction a as [|c r IH]; intros i hit H; cbn [append lastIndexOfFrom String.length].
  - cbn. rewrite lastIndexOf_no_dot by exact H. rewrite Nat.add_0_r. reflexivity.
  - rewrite IH by exact H. rewrite Nat.add_succ_r. reflexivity.
Qed.

Lemma substring_prefix a b : String.substring 0 (String.length a) (a ++ b) = a.
Proof.
  induction a as [|c r IH]; cbn.
  - destruct b; reflexivity.
  - rewrite IH. reflexivity.
Qed.

Lemma pop_split_last_dot a b :
  allBytes notDot b = true ->
  exists parts, Js.split "." (a ++ String "." b) = parts ++ [b] /\ parts <> [].
Proof.
  intros H. induction a as [|c r IH]; cbn [append Js.split].
  - cbn. rewrite split_no_dot by exact H. exists [""]. split; [reflexivity | discriminate].
  - destruct IH as (parts & -> & Hne).
    destruct parts as [|w ws]; [contradiction|]. cbn [app].
    destruct (Ascii.eqb c ".").
    + exists ("" :: w :: ws). split; [reflexivity | discriminate].
    + exists (String c w :: ws). split; [reflexivity | discriminate].
Qed.

(** X20: the type checks and the download cut a file name at the same
    place, its last dot. For a name [a.b] with no dot in [b], the extension
    the program tests is [b] in lower case and the base of the download
    name is [a], or the whole name when [a] is empty; a name with no dot is
    its own extension and its own base. *)
Theorem name_cut_at_last_dot (file : File.t) :
  (forall a b,
      File.name file = (a ++ "." ++ b)%string -> allBytes notDot b = true ->
      extensionOf file = Some (Js.toLowerCase b)
      /\ originalNameOf (File.name file) = (if String.eqb a "" then File.name file else a))
  /\ (allBytes notDot (File.name file) = true ->
      extensionOf file = Some (Js.toLowerCase (File.name file))
      /\ originalNameOf (File.name file) = File.name file).
Proof.
  split.
  - intros a b Hname Hb. unfold extensionOf, originalNameOf. rewrite Hname.
    cbn [append]. split.
    + destruct (pop_split_last_dot a b Hb) as (parts & -> & _).
      unfold Js.pop. rewrite rev_app_distr. reflexivity.
    + rewrite (lastIndexOf_last_dot a b 0 None Hb). cbn [plus].
      rewrite substring_prefix. unfold Js.orStr. reflexivity.
  - intros H. unfold extensionOf, originalNameOf.
    rewrite (split_no_dot _ H), (lastIndexOf_no_dot _ 0%nat None H). split; [reflexivity|].
    unfold Js.orStr. reflexivity.
Qed.

Lemma name_cut_at_last_dot_witness :
  let file := File.mk "report.final.PDF" 10 "" in
  File.name file = ("report.final" ++ "." ++ "PDF")%string
  /\ allBytes notDot "PDF" = true
  /\ extensionOf file = Some "pdf"
  /\ originalNameOf (File.name file) = "report.final".
Proof.
  intros file.
  assert (H1 : File.name file = ("report.final" ++ "." ++ "PDF")%string) by reflexivity.
  assert (H2 : allBytes notDot "PDF" = true) by reflexivity.
  split; [exact H1|]. split; [exact H2|].
  exact (proj1 (name_cut_at_last_dot file) "report.final" "PDF" H1 H2).
Defined.

(** ** What the output panel shows after a click or a removal *)

Lemma nth_error_middle {A} (l : list A) i x :
  nth_error l i = Some x -> exists before after, l = before ++ x :: after.
Proof.
  revert i. induction l as [|y rest IH]; intros [|i] H; try discriminate; cbn in H.
  - injection H as ->. exists [], rest. reflexivity.
  - destruct (IH i H) as (before & after & ->). exists (y :: before), after. reflexivity.
Qed.

(** X21: in file mode the output panel follows the selection. After a
    click on a row of a queue of distinct identities, it shows the result
    of the item of that row, or nothing when that item has none; after the
    selected item is removed, it shows the result of the first item left,
    or nothing when none is left. An item whose identity is the empty
    string counts as no selection: the panel then shows nothing. *)
Theorem panel_follows_selection (s : ConversionState.t) :
  ConversionState.inputMode s = ModeFile ->
  (forall i f,
      NoDup (queueIds s) ->
      nth_error (ConversionState.batchFiles s) i = Some f ->
      ConversionState.activeFileId (selectActive i s) = Some (BatchFileItem.id f)
      /\ getCurrentResult (selectActive i s)
         = if String.eqb (BatchFileItem.id f) "" then ""
           else Js.orStr (BatchFileItem.result f) "")
  /\ (forall id f rest,
        ConversionState.activeFileId s = Some id ->
        ConversionState.batchFiles (removeFile id s) = f :: rest ->
        ConversionState.activeFileId (removeFile id s) = Some (BatchFileItem.id f)
        /\ getCurrentResult (removeFile id s)
           = if String.eqb (BatchFileItem.id f) "" then ""
             else Js.orStr (BatchFileItem.result f) "")
  /\ (forall id,
        ConversionState.activeFileId s = Some id ->
        ConversionState.batchFiles (removeFile id s) = [] ->
        ConversionState.activeFileId (removeFile id s) = None
        /\ getCurrentResult (removeFile id s) = "").
Proof.
  intros Hmode. split; [|split].
  - intros i f Hnd Hnth. unfold selectActive. rewrite Hnth.
    unfold getCurrentResult, findActive. unfold_setters. rewrite Hmode.
    split; [reflexivity|]. unfold Js.truthy.
    destruct (String.eqb (BatchFileItem.id f) ""); cbn [negb]; [reflexivity|].
    destruct (nth_error_middle _ _ _ Hnth) as (before & after & Hq). rewrite Hq.
    rewrite find_middle; [reflexivity|].
    unfold queueIds in Hnd. rewrite Hq, map_app in Hnd. cbn [map] in Hnd.
    apply NoDup_remove_2 in Hnd. intros H. apply Hnd, in_or_app. left. exact H.
  - intros id f rest Hact Hq. unfold getCurrentResult, findActive. rewrite Hq.
    rewrite removeFile_queue in Hq. unfold removeFile. unfold_setters.
    rewrite Hmode, Hact, String.eqb_refl, Hq. split; [reflexivity|]. unfold Js.truthy.
    destruct (String.eqb (BatchFileItem.id f) ""); cbn [negb]; [reflexivity|].
    cbn. rewrite String.eqb_refl. reflexivity.
  - intros id Hact Hq. unfold getCurrentResult, findActive.
    rewrite removeFile_queue in Hq. unfold removeFile. unfold_setters.
    rewrite Hmode, Hact, String.eqb_refl, Hq. split; reflexivity.
Qed.

Lemma panel_follows_selection_witness :
  ConversionState.inputMode afterFirstRun = ModeFile
  /\ NoDup (queueIds afterFirstRun)
  /\ getCurrentResult (selectActive 1 afterFirstRun) = "converted"
  /\ getCurrentResult (selectActive 0 afterFirstRun) = "".
Proof.
  assert (H1 : ConversionState.inputMode afterFirstRun = ModeFile) by reflexivity.
  assert (H2 : NoDup (queueIds afterFirstRun)).
  { repeat constructor; cbn; intuition discriminate. }
  split; [exact H1|]. split; [exact H2|]. split.
  - rewrite (proj2 (proj1 (panel_follows_selection afterFirstRun H1) 1%nat
                      (BatchFileItem.mk "id1" scanPdf Success (Some "converted") None)
                      H2 eq_refl)).
    reflexivity.
  - rewrite (proj2 (proj1 (panel_follows_selection afterFirstRun H1) 0%nat
                      (BatchFileItem.mk "id0" notesTxt Error None (Some "quota exceeded"))
                      H2 eq_refl)).
    reflexivity.
Defined.
